(** * Timetable scheduling core of the hospital-management services

    A shallow embedding of [timetable_service.py] (the validator, the
    hospital existence check, the role gate and the four timetable
    handlers) and of the [Validate] endpoint of [account_service.py],
    together with the properties the specification states about them.

    Python's [datetime] and [timedelta] are modelled field by field, the
    way CPython's [datetime.py] computes with them; the relational store is
    a finite map from primary keys to rows; handlers are computations in a
    state-and-exception monad over the store and the log of outbound
    requests. *)

(** The second part of the development covers the rest of the timetable
    service (the token check, delete, the routes with their session
    dependency and their invariants), [sign_in] and [create_token] of the account service, and
    the documents service, which consumes the same Validate endpoint. *)

From stdpp Require Import gmap strings list fin_maps.
From Stdlib Require Import ZArith Lia.

Local Open Scope Z_scope.

(** ** Naive datetimes and time differences *)

Module PyDatetime.

(** A naive [datetime]: the seven calendar fields.  The specification
    takes all instants in one timezone supplied by the caller, so no
    [tzinfo] is carried. *)
Record datetime : Type := mk_datetime {
  year : Z;
  month : Z;
  day : Z;
  hour : Z;
  minute : Z;
  second : Z;
  microsecond : Z
}.

(** [_is_leap] *)
Definition is_leap (y : Z) : bool :=
  (y mod 4 =? 0) && (negb (y mod 100 =? 0) || (y mod 400 =? 0)).

(** [_days_before_year]: number of days before January 1st of year [y]. *)
Definition days_before_year (y : Z) : Z :=
  let y' := y - 1 in
  y' * 365 + y' / 4 - y' / 100 + y' / 400.

(** The table [_DAYS_IN_MONTH], indexed from 1. *)
Definition DAYS_IN_MONTH (m : Z) : Z :=
  match m with
  | 1 => 31 | 2 => 28 | 3 => 31 | 4 => 30 | 5 => 31 | 6 => 30
  | 7 => 31 | 8 => 31 | 9 => 30 | 10 => 31 | 11 => 30 | 12 => 31
  | _ => -1
  end.

(** The table [_DAYS_BEFORE_MONTH], indexed from 1. *)
Definition DAYS_BEFORE_MONTH (m : Z) : Z :=
  match m with
  | 1 => 0 | 2 => 31 | 3 => 59 | 4 => 90 | 5 => 120 | 6 => 151
  | 7 => 181 | 8 => 212 | 9 => 243 | 10 => 273 | 11 => 304 | 12 => 334
  | _ => -1
  end.

(** [_days_in_month] *)
Definition days_in_month (y m : Z) : Z :=
  if (m =? 2) && is_leap y then 29 else DAYS_IN_MONTH m.

(** [_days_before_month] *)
Definition days_before_month (y m : Z) : Z :=
  DAYS_BEFORE_MONTH m + (if (2 <? m) && is_leap y then 1 else 0).

(** [_ymd2ord]: the proleptic Gregorian ordinal, 0001-01-01 being day 1. *)
Definition ymd2ord (y m d : Z) : Z :=
  days_before_year y + days_before_month y m + d.

Definition toordinal (t : datetime) : Z :=
  ymd2ord (year t) (month t) (day t).

(** The range checks of the constructor ([_check_date_fields] and
    [_check_time_fields]): every [datetime] object satisfies them. *)
Definition valid (t : datetime) : bool :=
  (1 <=? year t) && (year t <=? 9999) &&
  (1 <=? month t) && (month t <=? 12) &&
  (1 <=? day t) && (day t <=? days_in_month (year t) (month t)) &&
  (0 <=? hour t) && (hour t <=? 23) &&
  (0 <=? minute t) && (minute t <=? 59) &&
  (0 <=? second t) && (second t <=? 59) &&
  (0 <=? microsecond t) && (microsecond t <=? 999999).

(** Comparison of two naive datetimes ([datetime._cmp]) compares the
    tuples of their seven fields lexicographically. *)
Definition fields (t : datetime) : list Z :=
  [year t; month t; day t; hour t; minute t; second t; microsecond t].

Fixpoint tuple_cmp (a b : list Z) : comparison :=
  match a, b with
  | [], [] => Eq
  | [], _ :: _ => Lt
  | _ :: _, [] => Gt
  | x :: a', y :: b' =>
      match x ?= y with
      | Eq => tuple_cmp a' b'
      | c => c
      end
  end.

Definition cmp (a b : datetime) : comparison :=
  tuple_cmp (fields a) (fields b).

(** [a <= b] and [a >= b] on datetimes. *)
Definition le (a b : datetime) : bool :=
  match cmp a b with Gt => false | _ => true end.

Definition ge (a b : datetime) : bool :=
  match cmp a b with Lt => false | _ => true end.

(** A [timedelta] in normal form: any number of days, then
    [0 <= seconds < 86400] and [0 <= microseconds < 1000000]. *)
Record timedelta : Type := mk_timedelta {
  days : Z;
  seconds : Z;
  microseconds : Z
}.

(** [timedelta(days, seconds, microseconds)] on integer arguments: the
    constructor carries microseconds into seconds and seconds into days
    with [divmod]. *)
Definition new_timedelta (d s us : Z) : timedelta :=
  let s1 := s + us / 1000000 in
  {| days := d + s1 / 86400;
     seconds := s1 mod 86400;
     microseconds := us mod 1000000 |}.

(** [datetime.__sub__] on two naive datetimes. *)
Definition sub (a b : datetime) : timedelta :=
  let secs1 := second a + minute a * 60 + hour a * 3600 in
  let secs2 := second b + minute b * 60 + hour b * 3600 in
  new_timedelta (toordinal a - toordinal b) (secs1 - secs2)
                (microsecond a - microsecond b).

(** [timedelta.total_seconds()] is the float
    [((days * 86400 + seconds) * 10**6 + microseconds) / 10**6];
    [total_microseconds] is the integer numerator of that division. *)
Definition total_microseconds (td : timedelta) : Z :=
  (days td * 86400 + seconds td) * 1000000 + microseconds td.

(** [td.total_seconds() > n] for an integer [n] of moderate size.  The
    division is correctly rounded and hence monotone, [n] is a float, and
    the quotient of a numerator above [n * 10**6] is at least
    [n + 10**-6], far more than one unit in the last place above [n]: the
    float comparison decides exactly the comparison of the numerators. *)
Definition total_seconds_gt (td : timedelta) (n : Z) : bool :=
  n * 1000000 <? total_microseconds td.

(** The instant a datetime denotes, in microseconds since the start of
    ordinal day 0.  It is not computed by the program: the properties
    below are stated with it. *)
Definition instant (t : datetime) : Z :=
  ((toordinal t * 24 + hour t) * 60 + minute t) * 60000000
  + second t * 1000000 + microsecond t.

End PyDatetime.

Import PyDatetime.

(** ** Exceptions and the handler monad *)

(** What a handler can raise: FastAPI's [HTTPException], or any other
    exception, which the framework turns into a 500 response. *)
Inductive exn : Type :=
  | HTTPException (status_code : Z) (detail : string)
  | Unhandled (what : string).

Inductive result (A : Type) : Type :=
  | Ok (a : A)
  | Raise (e : exn).

Arguments Ok {A} a.
Arguments Raise {A} e.

Definition HTTP_400_BAD_REQUEST : Z := 400.
Definition HTTP_401_UNAUTHORIZED : Z := 401.
Definition HTTP_403_FORBIDDEN : Z := 403.
Definition HTTP_404_NOT_FOUND : Z := 404.

(** ** The validator *)

Definition ordering_error : exn :=
  HTTPException HTTP_400_BAD_REQUEST "'to' must be after 'from'".
Definition duration_error : exn :=
  HTTPException HTTP_400_BAD_REQUEST "Duration cannot exceed 12 hours".
Definition alignment_error : exn :=
  HTTPException HTTP_400_BAD_REQUEST "Minutes must be a multiple of 30".

(** The other exceptions the timetable service raises. *)
Definition invalid_token : exn :=
  HTTPException HTTP_401_UNAUTHORIZED "Invalid token".
Definition hospital_not_found : exn :=
  HTTPException HTTP_404_NOT_FOUND "Hospital not found".
Definition forbidden : exn :=
  HTTPException HTTP_403_FORBIDDEN "Only admins or managers allowed".
Definition timetable_not_found : exn :=
  HTTPException HTTP_404_NOT_FOUND "Timetable not found".

(** [validate_time_range(from_time, to_time)] *)
Definition validate_time_range (from_time to_time : datetime) : result unit :=
  if le to_time from_time then Raise ordering_error
  else if total_seconds_gt (sub to_time from_time) (12 * 3600)
  then Raise duration_error
  else if negb (minute from_time mod 30 =? 0)
          || negb (minute to_time mod 30 =? 0)
          || negb (second from_time =? 0)
          || negb (second to_time =? 0)
  then Raise alignment_error
  else Ok tt.

(** ** JSON values and HTTP responses of the collaborating services *)

(** A parsed JSON document, as [response.json()] returns it. *)
#[local] Set Warnings "-register-all".
Inductive json : Type :=
  | JNull
  | JBool (b : bool)
  | JInt (n : Z)
  | JStr (s : string)
  | JArr (l : list json)
  | JObj (m : gmap string json).

(** Python truthiness of a parsed JSON value ([not v] is its negation). *)
Definition truthy (v : json) : bool :=
  match v with
  | JNull => false
  | JBool b => b
  | JInt n => negb (n =? 0)
  | JStr s => negb (String.length s =? 0)%nat
  | JArr l => negb (length l =? 0)%nat
  | JObj m => negb (size m =? 0)%nat
  end.

(** [d.get(key)]: the value under [key], or [None], which is JSON null. *)
Definition dict_get (d : gmap string json) (key : string) : json :=
  default JNull (d !! key).

(** [v in names] for a list of string literals: only a string can be equal
    to one of them. *)
Definition in_strings (v : json) (names : list string) : bool :=
  match v with
  | JStr s => bool_decide (s ∈ names)
  | _ => false
  end.

(** The outcome of an outbound [client.get]: a response with its status
    code and its body ([None] when the body is not JSON), or an exception
    of the transport. *)
Inductive http_result : Type :=
  | Response (status_code : Z) (body : option json)
  | TransportError.

(** ** The store *)

Module TimetableCreate.
Record t : Type := mk {
  hospital_id : Z;
  doctor_id : Z;
  room : string;
  from_time : datetime;
  to_time : datetime
}.
End TimetableCreate.

Module Timetable.
Record t : Type := mk {
  id : option Z;
  hospital_id : Z;
  doctor_id : Z;
  room : string;
  from_time : datetime;
  to_time : datetime
}.
End Timetable.

(** An outbound request, as logged in the order it was made. *)
Inductive request : Type :=
  | GetValidate (token : string)
  | GetHospital (hospital_id : Z).

(** The state a request handler runs against: the committed rows of the
    [timetable] table by primary key, the next value of the key's
    sequence, and the outbound requests made so far. *)
Record world : Type := mk_world {
  table : gmap Z Timetable.t;
  next_id : Z;
  outbound : list request
}.

(** The state after one more outbound request. *)
Definition log_request (w : world) (rq : request) : world :=
  mk_world (table w) (next_id w) (outbound w ++ [rq]).

(** Handlers: state passing with exceptions.  A raised exception keeps the
    state reached so far; nothing is committed by raising. *)
Definition M (A : Type) : Type := world -> result A * world.

Definition raise {A} (e : exn) : M A := fun w => (Raise e, w).
Definition lift {A} (r : result A) : M A := fun w => (r, w).

#[global] Instance M_ret : MRet M := fun A a w => (Ok a, w).
#[global] Instance M_bind : MBind M := fun A B k c w =>
  match c w with
  | (Ok a, w') => k a w'
  | (Raise e, w') => (Raise e, w')
  end.

(** ** The timetable service *)

Section TimetableService.

(** The collaborating services, as this service reaches them. *)
Variable auth_service : string -> http_result.
Variable hospital_service : Z -> http_result.

(** [client.get(url)]: the request is logged, then answered. *)
Definition client_get (rq : request) : M http_result :=
  fun w =>
    (Ok (match rq with
         | GetValidate token => auth_service token
         | GetHospital hospital_id => hospital_service hospital_id
         end),
     log_request w rq).

(** [response.json()] *)
Definition response_json (body : option json) : result json :=
  match body with
  | Some v => Ok v
  | None => Raise (Unhandled "JSONDecodeError")
  end.

(** [verify_token(token)] *)
Definition verify_token (token : string) : M (gmap string json) :=
  response ← client_get (GetValidate token);
  match response with
  | TransportError => raise (Unhandled "httpx.TransportError")
  | Response status_code body =>
      if negb (status_code =? 200)
      then raise invalid_token
      else
        v ← lift (response_json body);
        match v with
        | JObj d =>
            if negb (truthy (dict_get d "valid"))
            then raise invalid_token
            else mret d
        | _ => raise (Unhandled "AttributeError")
        end
  end.

(** [hospital_exists(hospital_id)] *)
Definition hospital_exists (hospital_id : Z) : M unit :=
  response ← client_get (GetHospital hospital_id);
  match response with
  | TransportError => raise (Unhandled "httpx.TransportError")
  | Response status_code _ =>
      if negb (status_code =? 200)
      then raise hospital_not_found
      else mret tt
  end.

(** The role test of [admin_or_manager_required], on the dictionary that
    [verify_token] returned. *)
Definition check_admin_or_manager (token : gmap string json) : result unit :=
  if negb (in_strings (dict_get token "role") ["admin"; "manager"])
  then Raise forbidden
  else Ok tt.

(** [admin_or_manager_required], with its dependency [verify_token]
    resolved first. *)
Definition admin_or_manager_required (token : string) : M unit :=
  d ← verify_token token;
  lift (check_admin_or_manager d).

(** [session.get(Timetable, id)] *)
Definition session_get (id : Z) : M (option Timetable.t) :=
  fun w => (Ok (table w !! id), w).

(** [session.add(row); session.commit(); session.refresh(row)] for a new
    row: the insert takes the next value of the key's sequence, and the
    refreshed row carries it. *)
Definition session_add_commit (new : TimetableCreate.t) : M Timetable.t :=
  fun w =>
    let row :=
      Timetable.mk (Some (next_id w))
        (TimetableCreate.hospital_id new) (TimetableCreate.doctor_id new)
        (TimetableCreate.room new)
        (TimetableCreate.from_time new) (TimetableCreate.to_time new) in
    (Ok row,
     mk_world (<[next_id w := row]> (table w)) (next_id w + 1) (outbound w)).

(** [session.commit(); session.refresh(row)] after the attributes of the
    loaded row [id] were set. *)
Definition session_commit_row (id : Z) (row : Timetable.t) : M Timetable.t :=
  fun w =>
    (Ok row, mk_world (<[id := row]> (table w)) (next_id w) (outbound w)).

(** [session.delete(row); session.commit()] *)
Definition session_delete_commit (id : Z) : M unit :=
  fun w => (Ok tt, mk_world (delete id (table w)) (next_id w) (outbound w)).

(** [for key, value in timetable.dict().items(): setattr(existing, key, value)] *)
Definition set_attributes (existing : Timetable.t) (timetable : TimetableCreate.t)
  : Timetable.t :=
  Timetable.mk (Timetable.id existing)
    (TimetableCreate.hospital_id timetable) (TimetableCreate.doctor_id timetable)
    (TimetableCreate.room timetable)
    (TimetableCreate.from_time timetable) (TimetableCreate.to_time timetable).

(** The body of [create_timetable]. *)
Definition create_timetable (timetable : TimetableCreate.t) : M Timetable.t :=
  lift (validate_time_range (TimetableCreate.from_time timetable)
                            (TimetableCreate.to_time timetable));;
  hospital_exists (TimetableCreate.hospital_id timetable);;
  session_add_commit timetable.

(** The body of [update_timetable]. *)
Definition update_timetable (id : Z) (timetable : TimetableCreate.t)
  : M Timetable.t :=
  lift (validate_time_range (TimetableCreate.from_time timetable)
                            (TimetableCreate.to_time timetable));;
  existing_timetable ← session_get id;
  match existing_timetable with
  | None => raise timetable_not_found
  | Some existing =>
      session_commit_row id (set_attributes existing timetable)
  end.

(** The body of [delete_timetable]. *)
Definition delete_timetable (id : Z) : M unit :=
  timetable ← session_get id;
  match timetable with
  | None => raise timetable_not_found
  | Some _ => session_delete_commit id
  end.

(** The [where] clause of [get_timetable_for_hospital]. *)
Definition in_window (id : Z) (from_time to_time : datetime)
    (row : Timetable.t) : bool :=
  (Timetable.hospital_id row =? id)
  && ge (Timetable.from_time row) from_time
  && le (Timetable.to_time row) to_time.

(** The body of [get_timetable_for_hospital]: every row the statement
    selects, with no limit or offset. *)
Definition get_timetable_for_hospital (id : Z) (from_time to_time : datetime)
  : M (list Timetable.t) :=
  fun w =>
    (Ok (snd <$> map_to_list
           (filter (fun kv => in_window id from_time to_time (snd kv) = true)
                   (table w))),
     w).

(** The outcome of the dependency [get_session()].  Its body enters
    [async with Session(engine)], and the [Session] of sqlmodel is the
    synchronous one, which is no asynchronous context manager: entering it
    raises [TypeError], no session is yielded, and the request ends in a
    500. *)
Definition session_error : exn := Unhandled "TypeError".

Definition get_session : result unit := Raise session_error.

(** The routes, for a given outcome of the session dependency (a
    deployment can override a dependency): FastAPI resolves the
    dependencies in the order of the signature, the session first and the
    token dependency second, and then runs the body. *)
Definition POST_Timetable_with (session : result unit) (token : string)
    (timetable : TimetableCreate.t) : M Timetable.t :=
  lift session;; admin_or_manager_required token;; create_timetable timetable.

Definition PUT_Timetable_with (session : result unit) (token : string)
    (id : Z) (timetable : TimetableCreate.t) : M Timetable.t :=
  lift session;; admin_or_manager_required token;;
  update_timetable id timetable.

Definition DELETE_Timetable_with (session : result unit) (token : string)
    (id : Z) : M unit :=
  lift session;; admin_or_manager_required token;; delete_timetable id.

Definition GET_Timetable_Hospital_with (session : result unit)
    (token : string) (id : Z) (from_time to_time : datetime)
  : M (list Timetable.t) :=
  lift session;; verify_token token;;
  get_timetable_for_hospital id from_time to_time.

(** The routes as coded: their session dependency is [get_session]. *)
Definition POST_Timetable (token : string) (timetable : TimetableCreate.t)
  : M Timetable.t :=
  POST_Timetable_with get_session token timetable.

Definition PUT_Timetable (token : string) (id : Z)
    (timetable : TimetableCreate.t) : M Timetable.t :=
  PUT_Timetable_with get_session token id timetable.

Definition DELETE_Timetable (token : string) (id : Z) : M unit :=
  DELETE_Timetable_with get_session token id.

Definition GET_Timetable_Hospital (token : string) (id : Z)
    (from_time to_time : datetime) : M (list Timetable.t) :=
  GET_Timetable_Hospital_with get_session token id from_time to_time.

End TimetableService.

(** ** The authentication service *)

Section AccountService.

(** [jwt.decode(token, SECRET_KEY, algorithms=[ALGORITHM])]: the claims of
    the token, or [None] where the library raises [JWTError]. *)
Variable jwt_decode : string -> option (gmap string json).

(** [validate_token(token)], the handler of [GET /api/Authentication/Validate]. *)
Definition validate_token (token : string) : result (gmap string json) :=
  match jwt_decode token with
  | Some payload =>
      Ok (<["valid" := JBool true]>
            (<["user_id" := dict_get payload "user_id"]> ∅))
  | None => Raise (HTTPException HTTP_401_UNAUTHORIZED "Invalid token")
  end.

(** The response the framework sends for the handler's outcome. *)
Definition Validate_endpoint (token : string) : http_result :=
  match validate_token token with
  | Ok d => Response 200 (Some (JObj d))
  | Raise (HTTPException status_code detail) =>
      Response status_code (Some (JObj {[ "detail" := JStr detail ]}))
  | Raise (Unhandled _) => Response 500 None
  end.

End AccountService.

(** ** Vocabulary of the properties *)

(** Twelve hours, in microseconds. *)
Definition TWELVE_HOURS : Z := 12 * 3600 * 1000000.

(** A slot boundary: on the hour or the half hour, zero seconds. *)
Definition aligned (t : datetime) : Prop :=
  minute t mod 30 = 0 /\ second t = 0.

(** Every stored row holds two datetime objects. *)
Definition stored_valid (w : world) : Prop :=
  map_Forall (fun (_ : Z) (row : Timetable.t) =>
                valid (Timetable.from_time row) = true
                /\ valid (Timetable.to_time row) = true) (table w).

(** ** Sample data *)

Module Sample.

(** A time of day on 2024-03-04. *)
Definition at_time (h mi s us : Z) : datetime :=
  mk_datetime 2024 3 4 h mi s us.

Definition slot (hospital_id : Z) (from_time to_time : datetime)
  : TimetableCreate.t :=
  TimetableCreate.mk hospital_id 7 "101" from_time to_time.

Definition stored (id hospital_id : Z) (from_time to_time : datetime)
  : Timetable.t :=
  Timetable.mk (Some id) hospital_id 7 "101" from_time to_time.

(** A store with three rows: two of hospital 1, one of hospital 2. *)
Definition three_rows : world :=
  mk_world
    (<[1 := stored 1 1 (at_time 9 0 0 0) (at_time 10 0 0 0)]>
       (<[2 := stored 2 1 (at_time 11 30 0 0) (at_time 14 0 0 0)]>
          (<[3 := stored 3 2 (at_time 9 0 0 0) (at_time 10 0 0 0)]> ∅)))
    4 [].

(** A hospital directory that knows hospital 1 only. *)
Definition only_hospital_1 (hospital_id : Z) : http_result :=
  if hospital_id =? 1 then Response 200 (Some (JObj ∅)) else Response 404 None.

(** An authentication service answering every token with the given role. *)
Definition validated (role : string) : gmap string json :=
  <["valid" := JBool true]>
    (<["user_id" := JInt 5]> (<["role" := JStr role]> ∅)).

Definition auth_with_role (role : string) (token : string) : http_result :=
  Response 200 (Some (JObj (validated role))).

(** A decoder for tokens issued by [sign_in] to user 5, an administrator. *)
Definition admin_claims (token : string) : option (gmap string json) :=
  Some (<["user_id" := JInt 5]>
          (<["role" := JStr "admin"]> (<["exp" := JInt 1730764800]> ∅))).

End Sample.

(** ** The service as a whole *)

(** A request to one of the four timetable routes. *)
Inductive call : Type :=
  | PostTimetable (token : string) (timetable : TimetableCreate.t)
  | PutTimetable (token : string) (id : Z) (timetable : TimetableCreate.t)
  | DeleteTimetable (token : string) (id : Z)
  | GetTimetableHospital (token : string) (id : Z)
      (from_time to_time : datetime).

(** A request together with what its environment does while it is
    served: the outcome of the session dependency ([get_session] as coded,
    or an override that yields a session) and the answers of the two
    collaborators, which may change from one request to the next. *)
Record exchange : Type := mk_exchange {
  session_outcome : result unit;
  auth_answers : string -> http_result;
  hospital_answers : Z -> http_result;
  incoming : call
}.

(** The state the service is left in by one request. *)
Definition serve (x : exchange) (w : world) : world :=
  match incoming x with
  | PostTimetable token timetable =>
      (POST_Timetable_with (auth_answers x) (hospital_answers x)
         (session_outcome x) token timetable w).2
  | PutTimetable token id timetable =>
      (PUT_Timetable_with (auth_answers x) (hospital_answers x)
         (session_outcome x) token id timetable w).2
  | DeleteTimetable token id =>
      (DELETE_Timetable_with (auth_answers x) (hospital_answers x)
         (session_outcome x) token id w).2
  | GetTimetableHospital token id from_time to_time =>
      (GET_Timetable_Hospital_with (auth_answers x) (hospital_answers x)
         (session_outcome x) token id from_time to_time w).2
  end.

(** Requests served one after the other. *)
Definition serve_all (xs : list exchange) (w : world) : world :=
  foldl (fun w x => serve x w) w xs.

(** ** Further vocabulary *)

(** Thirty minutes, in microseconds. *)
Definition HALF_HOUR : Z := 30 * 60 * 1000000.

(** Every row is stored under the key it carries, and every key in use was
    drawn from the sequence. *)
Definition keys_consistent (w : world) : Prop :=
  forall (k : Z) (row : Timetable.t),
    table w !! k = Some row -> Timetable.id row = Some k /\ k < next_id w.

(** Every stored row is a slot the validator accepts. *)
Definition stored_validated (w : world) : Prop :=
  forall (k : Z) (row : Timetable.t),
    table w !! k = Some row ->
    validate_time_range (Timetable.from_time row) (Timetable.to_time row)
    = Ok tt.

(** A body's five columns under a given [id] field. *)
Definition new_row_with_id (id : option Z) (timetable : TimetableCreate.t)
  : Timetable.t :=
  Timetable.mk id
    (TimetableCreate.hospital_id timetable) (TimetableCreate.doctor_id timetable)
    (TimetableCreate.room timetable)
    (TimetableCreate.from_time timetable) (TimetableCreate.to_time timetable).

(** The row [session_add_commit] stores for a body under key [k]. *)
Definition new_row (k : Z) (timetable : TimetableCreate.t) : Timetable.t :=
  new_row_with_id (Some k) timetable.

(** The ways one request can change the state: it logs outbound requests
    and leaves the store alone, or it also inserts a validated row under
    the next key, overwrites a stored row with a validated body keeping
    its id, or deletes a stored row. *)
Inductive transition (w : world) : world -> Prop :=
  | transition_none (rqs : list request) :
      transition w (mk_world (table w) (next_id w) (outbound w ++ rqs))
  | transition_insert (rqs : list request) (timetable : TimetableCreate.t) :
      validate_time_range (TimetableCreate.from_time timetable)
                          (TimetableCreate.to_time timetable) = Ok tt ->
      transition w
        (mk_world (<[next_id w := new_row (next_id w) timetable]> (table w))
                  (next_id w + 1) (outbound w ++ rqs))
  | transition_update (rqs : list request) (id : Z) (existing : Timetable.t)
      (timetable : TimetableCreate.t) :
      table w !! id = Some existing ->
      validate_time_range (TimetableCreate.from_time timetable)
                          (TimetableCreate.to_time timetable) = Ok tt ->
      transition w
        (mk_world (<[id := set_attributes existing timetable]> (table w))
                  (next_id w) (outbound w ++ rqs))
  | transition_delete (rqs : list request) (id : Z) (existing : Timetable.t) :
      table w !! id = Some existing ->
      transition w
        (mk_world (delete id (table w)) (next_id w) (outbound w ++ rqs)).

(** ** Signing in *)

(** A row of the [users] table. *)
Record User : Type := mk_User {
  user_id : Z;
  username : string;
  password : string;
  first_name : string;
  last_name : string;
  role : string
}.

(** The response model [Token]. *)
Record Token : Type := mk_Token {
  access_token : string;
  refresh_token : string
}.

Definition invalid_credentials : exn :=
  HTTPException HTTP_401_UNAUTHORIZED "Invalid credentials".

Section SignIn.

(** [jwt.encode(claims, SECRET_KEY, algorithm=ALGORITHM)] *)
Variable jwt_encode : gmap string json -> string.

(** [create_token(data, expires_delta)], the clock reading [now] and the
    delta both in whole seconds: the library encodes the [exp] datetime as
    its integer timestamp. *)
Definition create_token (data : gmap string json) (expires_delta : Z)
    (now : Z) : string :=
  jwt_encode (<["exp" := JInt (now + expires_delta)]> data).

(** [select(User).where(User.username == username)] followed by
    [result.scalars().first()]. *)
Definition first_by_username (users : gmap Z User) (name : string)
  : option User :=
  head (snd <$> map_to_list (filter (fun kv => username (snd kv) = name) users)).

(** [sign_in(username, password)]; the clock is read once for each of the
    two tokens. *)
Definition sign_in (users : gmap Z User) (now_access now_refresh : Z)
    (name pass : string) : result Token :=
  match first_by_username users name with
  | None => Raise invalid_credentials
  | Some user =>
      if negb (bool_decide (password user = pass))
      then Raise invalid_credentials
      else
        let data : gmap string json :=
          <["user_id" := JInt (user_id user)]>
            (<["role" := JStr (role user)]> ∅) in
        Ok (mk_Token (create_token data 3600 now_access)
                     (create_token data (7 * 86400) now_refresh))
  end.

End SignIn.

(** The claims [sign_in] puts into a token of user [u] expiring at [exp]. *)
Definition issued_claims (u : User) (exp : Z) : gmap string json :=
  <["exp" := JInt exp]>
    (<["user_id" := JInt (user_id u)]> (<["role" := JStr (role u)]> ∅)).

(** The [unique=True] constraint of the [username] column. *)
Definition unique_usernames (users : gmap Z User) : Prop :=
  forall (k k' : Z) (u u' : User),
    users !! k = Some u -> users !! k' = Some u' ->
    username u = username u' -> k = k'.

(** ** Sample users *)

Module SampleUsers.

Definition alice : User := mk_User 5 "alice" "s3cret" "Alice" "A" "admin".
Definition bob : User := mk_User 6 "bob" "hunter2" "Bob" "B" "user".

Definition users : gmap Z User := <[5 := alice]> (<[6 := bob]> ∅).

(** A stand-in for the JWT library that tells the two tokens of one
    sign-in of [alice] at time 1000000 apart by their expiry. *)
Definition encode (claims : gmap string json) : string :=
  match claims !! "exp" with
  | Some (JInt e) => if e =? 1003600 then "access" else "refresh"
  | _ => "other"
  end.

Definition decode (token : string) : option (gmap string json) :=
  if bool_decide (token = "access") then Some (issued_claims alice 1003600)
  else if bool_decide (token = "refresh")
       then Some (issued_claims alice 1604800)
       else None.

End SampleUsers.

(** ** Sample requests *)

Module SampleRequests.

(** In the three requests the session dependency is overridden by one that
    yields a session. *)

(** An administrator, with the directory knowing hospital 1, creates an
    afternoon slot. *)
Definition post_afternoon : exchange :=
  mk_exchange (Ok tt) (Sample.auth_with_role "admin") Sample.only_hospital_1
    (PostTimetable "t0k3n"
       (Sample.slot 1 (Sample.at_time 15 0 0 0) (Sample.at_time 16 0 0 0))).

(** A manager deletes timetable 2. *)
Definition delete_2 : exchange :=
  mk_exchange (Ok tt) (Sample.auth_with_role "manager")
    Sample.only_hospital_1 (DeleteTimetable "t0k3n" 2).

(** A manager moves timetable 1 to a slot that is too long. *)
Definition put_too_long : exchange :=
  mk_exchange (Ok tt) (Sample.auth_with_role "manager")
    Sample.only_hospital_1
    (PutTimetable "t0k3n" 1
       (Sample.slot 1 (Sample.at_time 8 0 0 0) (Sample.at_time 21 0 0 0))).

End SampleRequests.

(** ** The documents service *)

Module Documents.

(** The table row [History]. *)
Record History : Type := mk_History {
  id : option Z;
  date : datetime;
  pacient_id : Z;
  hospital_id : Z;
  doctor_id : Z;
  room : string;
  data : string
}.

Record HistoryCreate : Type := mk_HistoryCreate {
  c_date : datetime;
  c_pacient_id : Z;
  c_hospital_id : Z;
  c_doctor_id : Z;
  c_room : string;
  c_data : string
}.

Record HistoryUpdate : Type := mk_HistoryUpdate {
  u_date : datetime;
  u_hospital_id : Z;
  u_doctor_id : Z;
  u_room : string;
  u_data : string
}.

(** The outbound requests of this service. *)
Inductive request : Type :=
  | GetValidate (token : string)
  | GetAccount (user_id : Z).

(** The committed rows of the [history] table, the next value of the key's
    sequence and the outbound requests made so far. *)
Record world : Type := mk_world {
  table : gmap Z History;
  next_id : Z;
  outbound : list request
}.

Definition log_request (w : world) (rq : request) : world :=
  mk_world (table w) (next_id w) (outbound w ++ [rq]).

Definition M (A : Type) : Type := world -> result A * world.

Definition raise {A} (e : exn) : M A := fun w => (Raise e, w).
Definition lift {A} (r : result A) : M A := fun w => (r, w).

#[global] Instance M_ret : MRet M := fun A a w => (Ok a, w).
#[global] Instance M_bind : MBind M := fun A B k c w =>
  match c w with
  | (Ok a, w') => k a w'
  | (Raise e, w') => (Raise e, w')
  end.

Definition invalid_pacient_role : exn :=
  HTTPException HTTP_400_BAD_REQUEST "Invalid pacient role".
Definition access_denied : exn :=
  HTTPException HTTP_403_FORBIDDEN "Access denied".
Definition history_not_found : exn :=
  HTTPException HTTP_404_NOT_FOUND "History not found".

(** [d[key]]: the value, or [KeyError]. *)
Definition dict_item (d : gmap string json) (key : string) : result json :=
  match d !! key with
  | Some v => Ok v
  | None => Raise (Unhandled "KeyError")
  end.

(** [v != s] for a string literal [s]. *)
Definition ne_string (v : json) (s : string) : bool :=
  match v with
  | JStr s' => negb (bool_decide (s' = s))
  | _ => true
  end.

(** [v != n] for an integer [n]; Python's [True] and [False] equal 1 and 0. *)
Definition ne_int (v : json) (n : Z) : bool :=
  match v with
  | JInt m => negb (m =? n)
  | JBool b => negb ((if b then 1 else 0) =? n)
  | _ => true
  end.

Section Service.

(** The authentication service and the account service, as this service
    reaches them. *)
Variable auth_service : string -> http_result.
Variable account_service : Z -> http_result.

Definition client_get (rq : request) : M http_result :=
  fun w =>
    (Ok (match rq with
         | GetValidate token => auth_service token
         | GetAccount user_id => account_service user_id
         end),
     log_request w rq).

(** [verify_token(token)] *)
Definition verify_token (token : string) : M (gmap string json) :=
  response ← client_get (GetValidate token);
  match response with
  | TransportError => raise (Unhandled "httpx.TransportError")
  | Response status_code body =>
      if negb (status_code =? 200)
      then raise invalid_token
      else
        v ← lift (response_json body);
        match v with
        | JObj d =>
            if negb (truthy (dict_get d "valid"))
            then raise invalid_token
            else mret d
        | _ => raise (Unhandled "AttributeError")
        end
  end.

(** [verify_user_role(user_id)] *)
Definition verify_user_role (user_id : Z) : M unit :=
  response ← client_get (GetAccount user_id);
  match response with
  | TransportError => raise (Unhandled "httpx.TransportError")
  | Response status_code body =>
      if negb (status_code =? 200)
      then raise invalid_pacient_role
      else
        v ← lift (response_json body);
        match v with
        | JObj d =>
            if ne_string (dict_get d "role") "user"
            then raise invalid_pacient_role
            else mret tt
        | _ => raise (Unhandled "AttributeError")
        end
  end.

(** [select(History).where(History.id == history_id)] with
    [result.scalars().first()], and [session.get(History, id)]: the
    primary key selects at most one row. *)
Definition select_by_id (history_id : Z) : M (option History) :=
  fun w => (Ok (table w !! history_id), w).

(** The test of [doctor_or_owner_required] on the token dictionary and the
    selected row: [not history or (token["role"] != "doctor" and
    token["user_id"] != history.pacient_id)], evaluated left to right. *)
Definition denied (token : gmap string json) (history : option History)
  : result bool :=
  match history with
  | None => Ok true
  | Some h =>
      match dict_item token "role" with
      | Raise e => Raise e
      | Ok r =>
          if ne_string r "doctor"
          then match dict_item token "user_id" with
               | Raise e => Raise e
               | Ok u => Ok (ne_int u (pacient_id h))
               end
          else Ok false
      end
  end.

(** [doctor_or_owner_required(history_id, token, session)]: the function
    on its resolved arguments, the dictionary [verify_token] returned and
    a session. *)
Definition doctor_or_owner_required (history_id : Z)
    (token : gmap string json) : M unit :=
  history ← select_by_id history_id;
  refused ← lift (denied token history);
  if (refused : bool) then raise access_denied else mret tt.

(** The test of [admin_or_medical_required]. *)
Definition check_admin_or_medical (token : gmap string json) : result unit :=
  match dict_item token "role" with
  | Raise e => Raise e
  | Ok r =>
      if negb (in_strings r ["admin"; "manager"; "doctor"])
      then Raise access_denied
      else Ok tt
  end.

(** [admin_or_medical_required], with [verify_token] resolved first. *)
Definition admin_or_medical_required (token : string) : M unit :=
  d ← verify_token token;
  lift (check_admin_or_medical d).

(** The body of [get_history_by_account]. *)
Definition get_history_by_account (id : Z) : M (list History) :=
  fun w =>
    (Ok (snd <$> map_to_list
           (filter (fun kv => pacient_id (snd kv) = id) (table w))),
     w).

(** The body of [get_history_details]. *)
Definition get_history_details (id : Z) : M History :=
  history ← select_by_id id;
  match history with
  | None => raise history_not_found
  | Some h => mret h
  end.

(** The [History] built from the fields of the body, added, committed
    and refreshed. *)
Definition session_add_commit (new : HistoryCreate) : M History :=
  fun w =>
    let row :=
      mk_History (Some (next_id w)) (c_date new) (c_pacient_id new)
        (c_hospital_id new) (c_doctor_id new) (c_room new) (c_data new) in
    (Ok row,
     mk_world (<[next_id w := row]> (table w)) (next_id w + 1) (outbound w)).

(** The body of [create_history]. *)
Definition create_history (history : HistoryCreate) : M History :=
  verify_user_role (c_pacient_id history);;
  session_add_commit history.

(** [for key, value in updated_history.dict().items(): setattr(history, key, value)] *)
Definition set_attributes (history : History) (updated : HistoryUpdate)
  : History :=
  mk_History (id history) (u_date updated) (pacient_id history)
    (u_hospital_id updated) (u_doctor_id updated) (u_room updated)
    (u_data updated).

(** [session.commit(); session.refresh(history)] after the attributes of
    the loaded row [id] were set. *)
Definition session_commit_row (id : Z) (row : History) : M History :=
  fun w =>
    (Ok row, mk_world (<[id := row]> (table w)) (next_id w) (outbound w)).

(** The body of [update_history]. *)
Definition update_history (id : Z) (updated_history : HistoryUpdate)
  : M History :=
  history ← select_by_id id;
  match history with
  | None => raise history_not_found
  | Some h => session_commit_row id (set_attributes h updated_history)
  end.

(** The outcome of the dependency [get_session()] of this service: the
    same [async with Session(engine)] on the synchronous [Session], which
    raises. *)
Definition get_session : result unit := Raise session_error.

(** The two writing routes, for a given outcome of the session dependency:
    the session is resolved first, the token dependency second, then the
    body runs. *)
Definition POST_History_with (session : result unit) (token : string)
    (history : HistoryCreate) : M History :=
  lift session;; admin_or_medical_required token;; create_history history.

Definition PUT_History_with (session : result unit) (token : string)
    (id : Z) (updated_history : HistoryUpdate) : M History :=
  lift session;; admin_or_medical_required token;;
  update_history id updated_history.

(** The two routes as coded: their session dependency is [get_session]. *)
Definition POST_History (token : string) (history : HistoryCreate)
  : M History :=
  POST_History_with get_session token history.

Definition PUT_History (token : string) (id : Z)
    (updated_history : HistoryUpdate) : M History :=
  PUT_History_with get_session token id updated_history.

End Service.

End Documents.

(** Every key in use in the [history] table was drawn from the sequence. *)
Definition history_keys_below (w : Documents.world) : Prop :=
  forall (k : Z) (h : Documents.History),
    Documents.table w !! k = Some h -> k < Documents.next_id w.

(** ** Sample histories *)

Module SampleHistories.

Definition visit (k pacient : Z) : Documents.History :=
  Documents.mk_History (Some k) (Sample.at_time 9 0 0 0) pacient 1 7
    "101" "checkup".

(** History 1 belongs to patient 5, history 2 to patient 6. *)
Definition two_visits : Documents.world :=
  Documents.mk_world (<[1 := visit 1 5]> (<[2 := visit 2 6]> ∅)) 3 [].

(** An account service that knows user 5 as a patient. *)
Definition accounts (user_id : Z) : http_result :=
  if user_id =? 5
  then Response 200 (Some (JObj {[ "role" := JStr "user" ]}))
  else Response 404 None.

End SampleHistories.

(** * Properties *)

(** ** Calendar arithmetic *)

Module PyDatetimeFacts.

Lemma total_microseconds_new_timedelta (d s us : Z) :
  total_microseconds (new_timedelta d s us) = (d * 86400 + s) * 1000000 + us.
Proof.
  unfold total_microseconds, new_timedelta; cbn.
  pose proof (Z.div_mod us 1000000 ltac:(lia)).
  pose proof (Z.div_mod (s + us / 1000000) 86400 ltac:(lia)).
  lia.
Qed.

(** The difference of two datetimes is the difference of their instants. *)
Lemma total_microseconds_sub (a b : datetime) :
  total_microseconds (sub a b) = instant a - instant b.
Proof.
  unfold sub. rewrite total_microseconds_new_timedelta.
  unfold instant. lia.
Qed.

Lemma is_leap_spec (y : Z) :
  is_leap y = true <-> y mod 4 = 0 /\ (y mod 100 <> 0 \/ y mod 400 = 0).
Proof.
  unfold is_leap.
  rewrite andb_true_iff, orb_true_iff, negb_true_iff.
  rewrite !Z.eqb_eq, Z.eqb_neq. tauto.
Qed.

Lemma days_before_year_succ (y : Z) :
  days_before_year (y + 1)
  = days_before_year y + 365 + (if is_leap y then 1 else 0).
Proof.
  unfold days_before_year; cbn zeta.
  replace (y + 1 - 1) with (y - 1 + 1) by lia.
  destruct (is_leap y) eqn:L.
  - apply is_leap_spec in L.
    Z.div_mod_to_equations. lia.
  - assert (~ (y mod 4 = 0 /\ (y mod 100 <> 0 \/ y mod 400 = 0))) as N
      by (rewrite <- is_leap_spec; congruence).
    Z.div_mod_to_equations. lia.
Qed.

Lemma days_before_year_lt (y y' : Z) :
  y < y' ->
  days_before_year y + 365 + (if is_leap y then 1 else 0)
  <= days_before_year y'.
Proof.
  intros H.
  replace y' with (y + 1 + Z.of_nat (Z.to_nat (y' - y - 1))) by lia.
  generalize (Z.to_nat (y' - y - 1)) as n. clear.
  induction n as [|n IH].
  - rewrite Z.add_0_r, days_before_year_succ. lia.
  - replace (y + 1 + Z.of_nat (S n)) with (y + 1 + Z.of_nat n + 1) by lia.
    rewrite days_before_year_succ.
    destruct (is_leap (y + 1 + Z.of_nat n)); lia.
Qed.

Ltac month_cases m :=
  let H := fresh "Hm" in
  assert (m = 1 \/ m = 2 \/ m = 3 \/ m = 4 \/ m = 5 \/ m = 6 \/ m = 7
          \/ m = 8 \/ m = 9 \/ m = 10 \/ m = 11 \/ m = 12) as H by lia;
  repeat (destruct H as [-> | H]); [..| subst m].

(** A valid day of a year lies within the year. *)
Lemma day_of_year_bounds (y m d : Z) :
  1 <= m <= 12 -> 1 <= d <= days_in_month y m ->
  1 <= days_before_month y m + d <= 365 + (if is_leap y then 1 else 0).
Proof.
  intros Hm Hd. unfold days_before_month, days_in_month in *.
  month_cases m; destruct (is_leap y); cbn in *; lia.
Qed.

(** Within a year, a later month starts after every day of an earlier one. *)
Lemma days_before_month_lt (y m m' d : Z) :
  1 <= m -> m < m' -> m' <= 12 -> d <= days_in_month y m ->
  days_before_month y m + d <= days_before_month y m'.
Proof.
  intros H1 Hlt H12 Hd. unfold days_before_month, days_in_month in *.
  month_cases m; month_cases m'; try lia;
    destruct (is_leap y); cbn in *; lia.
Qed.

Lemma valid_bounds (t : datetime) :
  valid t = true ->
  (1 <= year t <= 9999) /\ (1 <= month t <= 12)
  /\ (1 <= day t <= days_in_month (year t) (month t))
  /\ (0 <= hour t <= 23) /\ (0 <= minute t <= 59)
  /\ (0 <= second t <= 59) /\ (0 <= microsecond t <= 999999).
Proof.
  unfold valid. rewrite !andb_true_iff, !Z.leb_le. tauto.
Qed.

(** The ordinal orders valid dates as their (year, month, day) triples. *)
Lemma ymd2ord_lt (y m d y' m' d' : Z) :
  1 <= m <= 12 -> 1 <= d <= days_in_month y m ->
  1 <= m' <= 12 -> 1 <= d' <= days_in_month y' m' ->
  y < y' \/ (y = y' /\ (m < m' \/ (m = m' /\ d < d'))) ->
  ymd2ord y m d < ymd2ord y' m' d'.
Proof.
  intros Hm Hd Hm' Hd' Hlt. unfold ymd2ord.
  destruct Hlt as [Hy | [-> [Hmm | [-> Hdd]]]].
  - pose proof (days_before_year_lt y y' Hy).
    pose proof (day_of_year_bounds y m d Hm Hd).
    pose proof (day_of_year_bounds y' m' d' Hm' Hd').
    lia.
  - pose proof (days_before_month_lt y' m m' d) as L. lia.
  - lia.
Qed.

Lemma instant_lt (a b : datetime) :
  valid a = true -> valid b = true ->
  cmp a b = Lt -> instant a < instant b.
Proof.
  intros Va Vb.
  apply valid_bounds in Va as (Hy & Hm & Hd & Hh & Hmi & Hs & Hus).
  apply valid_bounds in Vb as (Hy' & Hm' & Hd' & Hh' & Hmi' & Hs' & Hus').
  unfold cmp, fields; cbn [tuple_cmp]. unfold instant, toordinal.
  pose proof (ymd2ord_lt (year a) (month a) (day a)
                         (year b) (month b) (day b) Hm Hd Hm' Hd') as O.
  destruct (Z.compare_spec (year a) (year b)) as [Ey|Ly|Gy]; try discriminate;
    [|intros _; lia].
  destruct (Z.compare_spec (month a) (month b)) as [Em|Lm|Gm]; try discriminate;
    [|intros _; lia].
  destruct (Z.compare_spec (day a) (day b)) as [Ed|Ld|Gd]; try discriminate;
    [|intros _; lia].
  rewrite Ey, Em, Ed. clear O.
  destruct (Z.compare_spec (hour a) (hour b)); try discriminate;
    [|intros _; lia].
  destruct (Z.compare_spec (minute a) (minute b)); try discriminate;
    [|intros _; lia].
  destruct (Z.compare_spec (second a) (second b)); try discriminate;
    [|intros _; lia].
  destruct (Z.compare_spec (microsecond a) (microsecond b)); try discriminate.
  intros _; lia.
Qed.

Lemma tuple_cmp_antisym (a b : list Z) :
  tuple_cmp b a = CompOpp (tuple_cmp a b).
Proof.
  revert b; induction a as [|x a IH]; intros [|y b]; cbn; try reflexivity.
  rewrite (Z.compare_antisym x y).
  destruct (x ?= y); cbn; auto.
Qed.

Lemma cmp_Eq_fields (a b : datetime) : cmp a b = Eq -> a = b.
Proof.
  destruct a, b. unfold cmp, fields; cbn.
  repeat match goal with
  | |- context [?x ?= ?y] =>
      destruct (Z.compare_spec x y); try discriminate; subst
  end.
  reflexivity.
Qed.

(** Python's comparison of valid naive datetimes is the comparison of the
    instants they denote. *)
Lemma cmp_instant (a b : datetime) :
  valid a = true -> valid b = true ->
  cmp a b = (instant a ?= instant b).
Proof.
  intros Va Vb. destruct (cmp a b) eqn:C.
  - apply cmp_Eq_fields in C as ->. symmetry. apply Z.compare_refl.
  - symmetry. apply Z.compare_lt_iff. now apply instant_lt.
  - symmetry. apply Z.compare_gt_iff. apply instant_lt; auto.
    unfold cmp in *. rewrite tuple_cmp_antisym, C. reflexivity.
Qed.

Lemma le_instant (a b : datetime) :
  valid a = true -> valid b = true ->
  le a b = true <-> instant a <= instant b.
Proof.
  intros Va Vb. unfold le. rewrite (cmp_instant a b Va Vb).
  destruct (Z.compare_spec (instant a) (instant b)); split; intros;
    (lia || congruence).
Qed.

Lemma ge_instant (a b : datetime) :
  valid a = true -> valid b = true ->
  ge a b = true <-> instant b <= instant a.
Proof.
  intros Va Vb. unfold ge. rewrite (cmp_instant a b Va Vb).
  destruct (Z.compare_spec (instant a) (instant b)); split; intros;
    (lia || congruence).
Qed.

Lemma total_seconds_gt_instant (a b : datetime) (n : Z) :
  total_seconds_gt (sub a b) n = true <-> n * 1000000 < instant a - instant b.
Proof.
  unfold total_seconds_gt. rewrite total_microseconds_sub. apply Z.ltb_lt.
Qed.

End PyDatetimeFacts.

(** ** The validator *)

Section Validator.

Import PyDatetimeFacts.

Lemma aligned_test (f t : datetime) :
  negb (minute f mod 30 =? 0) || negb (minute t mod 30 =? 0)
  || negb (second f =? 0) || negb (second t =? 0) = false
  <-> aligned f /\ aligned t.
Proof.
  unfold aligned.
  rewrite !orb_false_iff, !negb_false_iff, !Z.eqb_eq. tauto.
Qed.

Lemma le_false_instant (f t : datetime) :
  valid f = true -> valid t = true ->
  le t f = false <-> instant f < instant t.
Proof.
  intros Vf Vt. pose proof (le_instant t f Vt Vf) as L.
  destruct (le t f); split; intros; try congruence; lia.
Qed.

Lemma total_seconds_gt_false (f t : datetime) :
  total_seconds_gt (sub t f) (12 * 3600) = false
  <-> instant t - instant f <= TWELVE_HOURS.
Proof.
  pose proof (total_seconds_gt_instant t f (12 * 3600)) as G.
  unfold TWELVE_HOURS.
  destruct (total_seconds_gt _ _); split; intros; try congruence; lia.
Qed.

(** The validator accepts exactly the pairs passing the three rules. *)
Lemma validate_time_range_Ok (f t : datetime) :
  valid f = true -> valid t = true ->
  validate_time_range f t = Ok tt
  <-> instant f < instant t
      /\ instant t - instant f <= TWELVE_HOURS
      /\ aligned f /\ aligned t.
Proof.
  intros Vf Vt. unfold validate_time_range.
  rewrite <- (le_false_instant f t Vf Vt), <- total_seconds_gt_false,
    <- aligned_test.
  destruct (le t f); [split; [discriminate | intros [? _]; discriminate]|].
  destruct (total_seconds_gt _ _);
    [split; [discriminate | intros (_ & ? & _); discriminate]|].
  match goal with |- context [if ?b then _ else _] => destruct b end;
    [split; [discriminate | intros (_ & _ & ?); discriminate]|].
  tauto.
Qed.

(** Every rejection of the validator is a 400. *)
Lemma validate_time_range_Raise (f t : datetime) (e : exn) :
  validate_time_range f t = Raise e ->
  e = ordering_error \/ e = duration_error \/ e = alignment_error.
Proof.
  unfold validate_time_range.
  repeat match goal with |- context [if ?b then _ else _] => destruct b end;
    intros [=]; auto.
Qed.

End Validator.

(** C1: for every pair of instants with [to_time] strictly after
    [from_time], a duration of at most twelve hours (twelve hours exactly
    included), minutes that are multiples of 30 and zero seconds, the
    validator raises nothing. *)
Theorem validate_time_range_accepts (from_time to_time : datetime) :
  valid from_time = true -> valid to_time = true ->
  instant from_time < instant to_time ->
  instant to_time - instant from_time <= TWELVE_HOURS ->
  minute from_time mod 30 = 0 -> minute to_time mod 30 = 0 ->
  second from_time = 0 -> second to_time = 0 ->
  validate_time_range from_time to_time = Ok tt.
Proof.
  intros Vf Vt Hord Hdur Hmf Hmt Hsf Hst.
  apply validate_time_range_Ok; unfold aligned; auto.
Qed.

(** The boundary of C1: 08:00 to 20:00, twelve hours exactly. *)
Lemma validate_time_range_accepts_witness :
  instant (Sample.at_time 20 0 0 0) - instant (Sample.at_time 8 0 0 0)
  = TWELVE_HOURS
  /\ validate_time_range (Sample.at_time 8 0 0 0) (Sample.at_time 20 0 0 0)
     = Ok tt.
Proof.
  split; [reflexivity|].
  apply (validate_time_range_accepts
           (Sample.at_time 8 0 0 0) (Sample.at_time 20 0 0 0));
    vm_compute; (reflexivity || discriminate).
Defined.

(** C2: the three rules apply in order and the first failure wins.  A pair
    with [to_time <= from_time] gets the ordering error whatever its
    alignment and duration; a pair in order lasting more than twelve hours
    gets the duration error whatever its alignment; the alignment error
    only comes out for a pair that passed both earlier rules. *)
Theorem validate_time_range_first_failure (from_time to_time : datetime) :
  valid from_time = true -> valid to_time = true ->
  (instant to_time <= instant from_time ->
   validate_time_range from_time to_time = Raise ordering_error)
  /\ (instant from_time < instant to_time ->
      TWELVE_HOURS < instant to_time - instant from_time ->
      validate_time_range from_time to_time = Raise duration_error)
  /\ (validate_time_range from_time to_time = Raise alignment_error ->
      instant from_time < instant to_time
      /\ instant to_time - instant from_time <= TWELVE_HOURS
      /\ ~ (aligned from_time /\ aligned to_time)).
Proof.
  intros Vf Vt.
  pose proof (PyDatetimeFacts.le_instant to_time from_time Vt Vf) as L.
  pose proof (total_seconds_gt_false from_time to_time) as D.
  pose proof (aligned_test from_time to_time) as A.
  unfold validate_time_range.
  destruct (le to_time from_time).
  { split; [reflexivity|]. split; [lia | discriminate]. }
  destruct (total_seconds_gt _ _).
  { split; [lia|]. split; [reflexivity | discriminate]. }
  match type of A with context [?b = false] => destruct b end.
  - split; [lia|]. split; [lia|]. intros _.
    split; [lia|]. split; [lia|]. intros H. apply A in H. discriminate.
  - split; [lia|]. split; [lia | discriminate].
Qed.

(** C2 at concrete pairs: 10:15 back to 09:00 is an ordering error though
    10:15 is misaligned; 08:00 to 21:00 is a duration error though both
    ends are aligned. *)
Lemma validate_time_range_first_failure_witness :
  validate_time_range (Sample.at_time 10 15 0 0) (Sample.at_time 9 0 0 0)
  = Raise ordering_error
  /\ validate_time_range (Sample.at_time 8 0 0 0) (Sample.at_time 21 0 0 0)
     = Raise duration_error.
Proof.
  split.
  - apply (validate_time_range_first_failure
             (Sample.at_time 10 15 0 0) (Sample.at_time 9 0 0 0));
      vm_compute; (reflexivity || discriminate).
  - apply (validate_time_range_first_failure
             (Sample.at_time 8 0 0 0) (Sample.at_time 21 0 0 0));
      vm_compute; reflexivity.
Defined.

(** C9: the alignment rule reads the minute and second fields only.  A
    pair in order, lasting at most twelve hours, with minutes that are
    multiples of 30 and zero seconds, is accepted also when one or both of
    its instants carry a nonzero microsecond field. *)
Theorem validate_time_range_ignores_microseconds (from_time to_time : datetime) :
  valid from_time = true -> valid to_time = true ->
  microsecond from_time <> 0 \/ microsecond to_time <> 0 ->
  instant from_time < instant to_time ->
  instant to_time - instant from_time <= TWELVE_HOURS ->
  minute from_time mod 30 = 0 -> minute to_time mod 30 = 0 ->
  second from_time = 0 -> second to_time = 0 ->
  validate_time_range from_time to_time = Ok tt.
Proof.
  intros Vf Vt _ Hord Hdur Hmf Hmt Hsf Hst.
  unfold validate_time_range.
  apply le_false_instant in Hord as ->; [|assumption..].
  apply total_seconds_gt_false in Hdur as ->.
  rewrite Hmf, Hmt, Hsf, Hst. reflexivity.
Qed.

(** C9 at 09:00:00.000250 to 10:30:00.999999. *)
Lemma validate_time_range_ignores_microseconds_witness :
  validate_time_range (Sample.at_time 9 0 0 250) (Sample.at_time 10 30 0 999999)
  = Ok tt.
Proof.
  apply (validate_time_range_ignores_microseconds
           (Sample.at_time 9 0 0 250) (Sample.at_time 10 30 0 999999));
    [ reflexivity | reflexivity | left; vm_compute; discriminate
    | vm_compute; reflexivity | vm_compute; discriminate
    | reflexivity .. ].
Defined.

(** ** The query *)

Lemma in_window_instant (id : Z) (from_time to_time : datetime)
    (row : Timetable.t) :
  valid from_time = true -> valid to_time = true ->
  valid (Timetable.from_time row) = true ->
  valid (Timetable.to_time row) = true ->
  in_window id from_time to_time row = true
  <-> Timetable.hospital_id row = id
      /\ instant from_time <= instant (Timetable.from_time row)
      /\ instant (Timetable.to_time row) <= instant to_time.
Proof.
  intros Vf Vt Vrf Vrt. unfold in_window.
  rewrite !andb_true_iff, Z.eqb_eq.
  rewrite (PyDatetimeFacts.ge_instant _ _ Vrf Vf).
  rewrite (PyDatetimeFacts.le_instant _ _ Vrt Vt).
  tauto.
Qed.

(** C4: the query returns one entry per stored row whose hospital is the
    requested one, whose start is at or after [from_time] and whose end is
    at or before [to_time], and nothing else: a row reaching outside the
    window is left out, and no matching row is cut off by a page limit. *)
Theorem get_timetable_for_hospital_exact (id : Z) (from_time to_time : datetime)
    (w : world) :
  valid from_time = true -> valid to_time = true -> stored_valid w ->
  exists keyed : list (Z * Timetable.t),
    get_timetable_for_hospital id from_time to_time w = (Ok (keyed.*2), w)
    /\ NoDup (keyed.*1)
    /\ forall (k : Z) (row : Timetable.t),
         (k, row) ∈ keyed
         <-> table w !! k = Some row
             /\ Timetable.hospital_id row = id
             /\ instant from_time <= instant (Timetable.from_time row)
             /\ instant (Timetable.to_time row) <= instant to_time.
Proof.
  intros Vf Vt Vw.
  eexists. split; [reflexivity|]. split.
  - apply NoDup_fst_map_to_list.
  - intros k row.
    rewrite elem_of_map_to_list, map_lookup_filter_Some; cbn.
    split.
    + intros [L W]. destruct (Vw k row L) as [Vrf Vrt].
      split; [exact L|]. now apply in_window_instant.
    + intros [L W]. destruct (Vw k row L) as [Vrf Vrt].
      split; [exact L|]. now apply in_window_instant.
Qed.

Lemma three_rows_valid : stored_valid Sample.three_rows.
Proof.
  unfold stored_valid, Sample.three_rows; cbn.
  repeat (apply map_Forall_insert_2; [split; reflexivity|]).
  apply map_Forall_empty.
Qed.

(** C4 on the sample store, hospital 1 and the window 09:00 to 12:00: row 1
    (09:00 to 10:00) is returned, row 2 (11:30 to 14:00) overlaps the
    window only in part and is not, row 3 is of another hospital. *)
Lemma get_timetable_for_hospital_exact_witness :
  exists keyed : list (Z * Timetable.t),
    get_timetable_for_hospital 1 (Sample.at_time 9 0 0 0)
      (Sample.at_time 12 0 0 0) Sample.three_rows
    = (Ok (keyed.*2), Sample.three_rows)
    /\ (1, Sample.stored 1 1 (Sample.at_time 9 0 0 0) (Sample.at_time 10 0 0 0))
         ∈ keyed
    /\ (2, Sample.stored 2 1 (Sample.at_time 11 30 0 0)
                             (Sample.at_time 14 0 0 0)) ∉ keyed.
Proof.
  destruct (get_timetable_for_hospital_exact 1 (Sample.at_time 9 0 0 0)
              (Sample.at_time 12 0 0 0) Sample.three_rows
              eq_refl eq_refl three_rows_valid) as (keyed & E & _ & In).
  exists keyed. split; [exact E|]. split.
  - apply In. vm_compute. repeat split; discriminate.
  - intros H. apply In in H as (_ & _ & _ & H). vm_compute in H. auto.
Defined.

(** ** The handlers *)

Section Handlers.

Variable auth_service : string -> http_result.
Variable hospital_service : Z -> http_result.

Lemma bind_lift_Ok {A B} (a : A) (k : A -> M B) (w : world) :
  (lift (Ok a) ≫= k) w = k a w.
Proof. reflexivity. Qed.

Lemma bind_lift_Raise {A B} (e : exn) (k : A -> M B) (w : world) :
  (lift (Raise e) ≫= k) w = (Raise e, w).
Proof. reflexivity. Qed.

Lemma bind_run {A B} (c : M A) (k : A -> M B) (w : world) :
  (c ≫= k) w
  = match c w with
    | (Ok a, w') => k a w'
    | (Raise e, w') => (Raise e, w')
    end.
Proof. reflexivity. Qed.

(** What the existence check does with each outcome of the lookup. *)
Lemma hospital_exists_run (hospital_id : Z) (w : world) :
  hospital_exists auth_service hospital_service hospital_id w
  = (match hospital_service hospital_id with
     | Response status_code _ =>
         if status_code =? 200 then Ok tt else Raise hospital_not_found
     | TransportError => Raise (Unhandled "httpx.TransportError")
     end,
     log_request w (GetHospital hospital_id)).
Proof.
  unfold hospital_exists. rewrite bind_run. cbn.
  destruct (hospital_service hospital_id) as [status_code body|]; [|reflexivity].
  destruct (status_code =? 200); reflexivity.
Qed.

(** The token check makes one request and touches nothing else. *)
Lemma verify_token_world (token : string) (w w1 : world)
    (r : result (gmap string json)) :
  verify_token auth_service hospital_service token w = (r, w1) ->
  w1 = log_request w (GetValidate token).
Proof.
  unfold verify_token. rewrite bind_run. cbn.
  destruct (auth_service token) as [status_code body|]; [|now intros [= _ <-]].
  destruct (status_code =? 200); cbn; [|now intros [= _ <-]].
  rewrite bind_run.
  destruct body as [v|]; cbn; [|now intros [= _ <-]].
  destruct v; try (now intros [= _ <-]).
  destruct (truthy _); now intros [= _ <-].
Qed.

Lemma in_strings_admin_manager (v : json) :
  in_strings v ["admin"; "manager"] = true
  <-> v = JStr "admin" \/ v = JStr "manager".
Proof.
  destruct v; cbn; try (split; [discriminate | intros [H|H]; discriminate]).
  rewrite bool_decide_eq_true, !elem_of_cons, elem_of_nil.
  split.
  - intros [-> | [-> | []]]; auto.
  - intros [[= ->] | [= ->]]; auto.
Qed.

Lemma admin_or_manager_required_run (token : string) (w : world) :
  admin_or_manager_required auth_service hospital_service token w
  = match verify_token auth_service hospital_service token w with
    | (Ok d, w1) => (check_admin_or_manager d, w1)
    | (Raise e, w1) => (Raise e, w1)
    end.
Proof.
  unfold admin_or_manager_required. rewrite bind_run.
  destruct (verify_token auth_service hospital_service token w) as [[d|e] w1]; reflexivity.
Qed.

Lemma create_timetable_run (timetable : TimetableCreate.t) (w : world) :
  create_timetable auth_service hospital_service timetable w
  = match validate_time_range (TimetableCreate.from_time timetable)
                              (TimetableCreate.to_time timetable) with
    | Raise e => (Raise e, w)
    | Ok _ =>
        match hospital_exists auth_service hospital_service (TimetableCreate.hospital_id timetable) w with
        | (Raise e, w1) => (Raise e, w1)
        | (Ok _, w1) => session_add_commit timetable w1
        end
    end.
Proof.
  unfold create_timetable.
  destruct (validate_time_range _ _) as [[]|e]; [|reflexivity].
  rewrite bind_lift_Ok, bind_run.
  destruct (hospital_exists auth_service hospital_service _ w) as [[[]|e] w1]; reflexivity.
Qed.

Lemma update_timetable_run (id : Z) (timetable : TimetableCreate.t) (w : world) :
  update_timetable id timetable w
  = match validate_time_range (TimetableCreate.from_time timetable)
                              (TimetableCreate.to_time timetable) with
    | Raise e => (Raise e, w)
    | Ok _ =>
        match table w !! id with
        | None => (Raise timetable_not_found, w)
        | Some existing =>
            let row := set_attributes existing timetable in
            (Ok row, mk_world (<[id := row]> (table w)) (next_id w) (outbound w))
        end
    end.
Proof.
  unfold update_timetable.
  destruct (validate_time_range _ _) as [[]|e]; [|reflexivity].
  rewrite bind_lift_Ok, bind_run. cbn.
  destruct (table w !! id); reflexivity.
Qed.

End Handlers.

(** C5: create is atomic, in the order validate, check, persist.  When the
    validation raises, the state is untouched; when the existence check
    raises after a passed validation, store and key sequence are as they
    were; a row is returned only after both stages succeeded, and then the
    state differs from the one the check left by that one insert; any
    failure leaves the store as it was. *)
Theorem create_timetable_atomic
    (auth_service : string -> http_result) (hospital_service : Z -> http_result)
    (timetable : TimetableCreate.t) (w w' : world) (r : result Timetable.t) :
  create_timetable auth_service hospital_service timetable w = (r, w') ->
  let validation :=
    validate_time_range (TimetableCreate.from_time timetable)
                        (TimetableCreate.to_time timetable) in
  let check :=
    hospital_exists auth_service hospital_service
                    (TimetableCreate.hospital_id timetable) w in
  (forall e, validation = Raise e -> r = Raise e /\ w' = w)
  /\ (forall e, validation = Ok tt -> check.1 = Raise e ->
      r = Raise e /\ table w' = table w /\ next_id w' = next_id w)
  /\ (forall row, r = Ok row ->
      validation = Ok tt /\ check.1 = Ok tt
      /\ w' = mk_world (<[next_id w := row]> (table w)) (next_id w + 1)
                       (outbound check.2))
  /\ (forall e, r = Raise e -> table w' = table w /\ next_id w' = next_id w).
Proof.
  intros Hrun validation check. subst validation check.
  rewrite create_timetable_run in Hrun.
  rewrite hospital_exists_run in *. cbn [fst snd].
  destruct (validate_time_range _ _) as [[]|e0].
  - destruct (match hospital_service _ with
              | Response _ _ => _ | TransportError => _ end) as [[]|e1].
    + injection Hrun as <- <-. cbn.
      split; [discriminate|]. split; [discriminate|]. split; [|discriminate].
      intros ? [= <-]. auto.
    + injection Hrun as <- <-. cbn.
      split; [discriminate|]. split; [intros ? _ [= <-]; auto|].
      split; [discriminate | auto].
  - injection Hrun as <- <-.
    split; [intros ? [= <-]; auto|]. split; [discriminate|].
    split; [discriminate | auto].
Qed.

(** C5 on the sample store: a valid slot for hospital 99, which the
    directory does not know, is refused and the store keeps its rows. *)
Lemma create_timetable_atomic_witness :
  let w := create_timetable (Sample.auth_with_role "admin")
             Sample.only_hospital_1
             (Sample.slot 99 (Sample.at_time 9 0 0 0) (Sample.at_time 10 0 0 0))
             Sample.three_rows in
  w.1 = Raise hospital_not_found
  /\ table w.2 = table Sample.three_rows
  /\ next_id w.2 = next_id Sample.three_rows.
Proof.
  cbv zeta.
  destruct (create_timetable_atomic (Sample.auth_with_role "admin")
              Sample.only_hospital_1
              (Sample.slot 99 (Sample.at_time 9 0 0 0) (Sample.at_time 10 0 0 0))
              Sample.three_rows _ _ (surjective_pairing _))
    as (_ & Hcheck & _ & _).
  apply (Hcheck hospital_not_found); reflexivity.
Defined.

(** C6: whatever status other than 200 the hospital lookup answers with,
    404 or any other, the existence check raises the same 404 "Hospital
    not found", and a create for that hospital stops there with nothing
    persisted; on a 200 the check returns and a validated create goes on
    to insert its row. *)
Theorem hospital_exists_only_200
    (auth_service : string -> http_result) (hospital_service : Z -> http_result)
    (hospital_id status_code : Z) (body : option json) (w : world) :
  hospital_service hospital_id = Response status_code body ->
  (status_code <> 200 ->
   hospital_exists auth_service hospital_service hospital_id w
   = (Raise hospital_not_found, log_request w (GetHospital hospital_id))
   /\ forall timetable,
       TimetableCreate.hospital_id timetable = hospital_id ->
       validate_time_range (TimetableCreate.from_time timetable)
                           (TimetableCreate.to_time timetable) = Ok tt ->
       exists w',
         create_timetable auth_service hospital_service timetable w
         = (Raise hospital_not_found, w')
         /\ table w' = table w /\ next_id w' = next_id w)
  /\ (status_code = 200 ->
      hospital_exists auth_service hospital_service hospital_id w
      = (Ok tt, log_request w (GetHospital hospital_id))
      /\ forall timetable,
          TimetableCreate.hospital_id timetable = hospital_id ->
          validate_time_range (TimetableCreate.from_time timetable)
                              (TimetableCreate.to_time timetable) = Ok tt ->
          exists row w',
            create_timetable auth_service hospital_service timetable w
            = (Ok row, w')
            /\ table w' !! next_id w = Some row
            /\ Timetable.hospital_id row = hospital_id).
Proof.
  intros Hresp. split.
  - intros Hne. apply Z.eqb_neq in Hne. split.
    + rewrite hospital_exists_run, Hresp, Hne. reflexivity.
    + intros timetable <- Hvalid.
      rewrite create_timetable_run, Hvalid, hospital_exists_run, Hresp, Hne.
      eexists. split; [reflexivity|]. split; reflexivity.
  - intros ->. split.
    + rewrite hospital_exists_run, Hresp. reflexivity.
    + intros timetable <- Hvalid.
      rewrite create_timetable_run, Hvalid, hospital_exists_run, Hresp.
      cbn. eexists _, _. split; [reflexivity|]. cbn.
      split; [apply lookup_insert_eq | reflexivity].
Qed.

(** C6 with a directory answering 503 for every hospital. *)
Lemma hospital_exists_only_200_witness :
  hospital_exists (Sample.auth_with_role "admin")
    (fun _ => Response 503 None) 1 Sample.three_rows
  = (Raise hospital_not_found,
     log_request Sample.three_rows (GetHospital 1)).
Proof.
  apply (hospital_exists_only_200 (Sample.auth_with_role "admin")
           (fun _ => Response 503 None) 1 503 None Sample.three_rows eq_refl).
  discriminate.
Defined.

(** The role gate by itself: for a token that [verify_token] accepted, a
    role other than "admin" and "manager" makes it raise 403 after the one
    call to the authentication service, with the store as it was; the
    roles "admin" and "manager" pass. *)
Lemma admin_or_manager_required_decides
    (auth_service : string -> http_result) (hospital_service : Z -> http_result)
    (token : string) (d : gmap string json) (w w1 : world) :
  verify_token auth_service hospital_service token w = (Ok d, w1) ->
  (dict_get d "role" <> JStr "admin" -> dict_get d "role" <> JStr "manager" ->
   admin_or_manager_required auth_service hospital_service token w
   = (Raise forbidden, w1))
  /\ (dict_get d "role" = JStr "admin" \/ dict_get d "role" = JStr "manager" ->
      admin_or_manager_required auth_service hospital_service token w
      = (Ok tt, w1)).
Proof.
  intros Hv.
  pose proof (admin_or_manager_required_run auth_service hospital_service
                token w) as Hgate.
  rewrite Hv in Hgate. unfold check_admin_or_manager in Hgate.
  pose proof (in_strings_admin_manager (dict_get d "role")) as Hin.
  split.
  - intros Ha Hm.
    destruct (in_strings _ _); [destruct Hin as [Hin _]; tauto|].
    exact Hgate.
  - intros Hrole. apply Hin in Hrole. now rewrite Hrole in Hgate.
Qed.

(** Every route as coded stops in its first dependency: [get_session]
    raises, so the route ends in that unhandled exception, a 500, without
    a call to another service and with the state as it was. *)
Lemma routes_stop_at_get_session
    (auth_service : string -> http_result) (hospital_service : Z -> http_result)
    (token : string) (w : world) :
  (forall timetable,
     POST_Timetable auth_service hospital_service token timetable w
     = (Raise session_error, w))
  /\ (forall id timetable,
        PUT_Timetable auth_service hospital_service token id timetable w
        = (Raise session_error, w))
  /\ (forall id,
        DELETE_Timetable auth_service hospital_service token id w
        = (Raise session_error, w))
  /\ (forall id from_time to_time,
        GET_Timetable_Hospital auth_service hospital_service token id
          from_time to_time w
        = (Raise session_error, w)).
Proof. repeat split. Qed.

(** C8, as the code runs: a validated token of role "doctor" asks for a
    create, an update and a delete.  The role gate, taken by itself,
    answers 403 after its call to the authentication service.  The three
    routes never reach it: their first dependency, [get_session], raises,
    and each of them ends in that unhandled exception, a 500 and not a 403,
    with no outbound request made. *)
Lemma role_gate_not_reached :
  let body :=
    Sample.slot 1 (Sample.at_time 9 0 0 0) (Sample.at_time 10 0 0 0) in
  admin_or_manager_required (Sample.auth_with_role "doctor")
    Sample.only_hospital_1 "t0k3n" Sample.three_rows
  = (Raise forbidden, log_request Sample.three_rows (GetValidate "t0k3n"))
  /\ POST_Timetable (Sample.auth_with_role "doctor") Sample.only_hospital_1
       "t0k3n" body Sample.three_rows
     = (Raise (Unhandled "TypeError"), Sample.three_rows)
  /\ PUT_Timetable (Sample.auth_with_role "doctor") Sample.only_hospital_1
       "t0k3n" 1 body Sample.three_rows
     = (Raise (Unhandled "TypeError"), Sample.three_rows)
  /\ DELETE_Timetable (Sample.auth_with_role "doctor") Sample.only_hospital_1
       "t0k3n" 1 Sample.three_rows
     = (Raise (Unhandled "TypeError"), Sample.three_rows).
Proof.
  cbv zeta. split; [vm_compute; reflexivity|]. repeat split.
Qed.

(** C10: update validates before it looks the row up.  An invalid time
    range fails with the validator's 400 whether or not a timetable with
    the given id exists; the 404 "Timetable not found" only comes out after
    a passed validation, for an id that is not stored; and in both failures
    the state is unchanged. *)
Theorem update_timetable_validates_first
    (id : Z) (timetable : TimetableCreate.t) (w : world) :
  let validation :=
    validate_time_range (TimetableCreate.from_time timetable)
                        (TimetableCreate.to_time timetable) in
  (forall e, validation = Raise e ->
     update_timetable id timetable w = (Raise e, w)
     /\ exists detail, e = HTTPException 400 detail)
  /\ (forall w', update_timetable id timetable w = (Raise timetable_not_found, w') ->
      validation = Ok tt /\ table w !! id = None /\ w' = w)
  /\ (validation = Ok tt -> table w !! id = None ->
      update_timetable id timetable w = (Raise timetable_not_found, w)).
Proof.
  cbv zeta. rewrite update_timetable_run.
  destruct (validate_time_range _ _) as [[]|e0] eqn:V.
  - split; [discriminate|]. split.
    + destruct (table w !! id); [discriminate|]. intros ? [= <-]. auto.
    + intros _ ->. reflexivity.
  - split; [|split].
    + intros ? [= <-]. split; [reflexivity|].
      apply validate_time_range_Raise in V as [-> | [-> | ->]];
        eexists; reflexivity.
    + intros w' [= -> <-].
      apply validate_time_range_Raise in V as [V | [V | V]]; discriminate.
    + discriminate.
Qed.

(** C10 on the sample store: no row has id 42, and the range 10:00 back to
    09:00 is refused with the ordering error, not with a 404. *)
Lemma update_timetable_validates_first_witness :
  table Sample.three_rows !! 42 = None
  /\ update_timetable 42
       (Sample.slot 1 (Sample.at_time 10 0 0 0) (Sample.at_time 9 0 0 0))
       Sample.three_rows
     = (Raise ordering_error, Sample.three_rows).
Proof.
  split; [reflexivity|].
  apply (update_timetable_validates_first 42
           (Sample.slot 1 (Sample.at_time 10 0 0 0) (Sample.at_time 9 0 0 0))
           Sample.three_rows).
  reflexivity.
Defined.

(** Update never asks the hospital directory: it makes no outbound
    request at all. *)
Lemma update_timetable_outbound (id : Z) (timetable : TimetableCreate.t)
    (w w' : world) (r : result Timetable.t) :
  update_timetable id timetable w = (r, w') -> outbound w' = outbound w.
Proof.
  rewrite update_timetable_run.
  destruct (validate_time_range _ _) as [[]|e0]; [|now intros [= _ <-]].
  destruct (table w !! id); now intros [= _ <-].
Qed.

(** C3, as the code runs: the handler [update_timetable] moves row 1 to
    hospital 99, which the directory answers with a 404.  It asks no other
    service and commits the row with the unknown hospital; the handler
    [create_timetable] refuses the same body with 404 "Hospital not found"
    after asking the directory. *)
Lemma update_timetable_skips_hospital_check :
  let body :=
    Sample.slot 99 (Sample.at_time 9 0 0 0) (Sample.at_time 10 0 0 0) in
  let row :=
    Sample.stored 1 99 (Sample.at_time 9 0 0 0) (Sample.at_time 10 0 0 0) in
  Sample.only_hospital_1 99 = Response 404 None
  /\ create_timetable (Sample.auth_with_role "admin") Sample.only_hospital_1
       body Sample.three_rows
     = (Raise hospital_not_found,
        mk_world (table Sample.three_rows) 4 [GetHospital 99])
  /\ update_timetable 1 body Sample.three_rows
     = (Ok row, mk_world (<[1 := row]> (table Sample.three_rows)) 4 []).
Proof.
  cbv zeta. split; [reflexivity|]. split; vm_compute; reflexivity.
Qed.

(** ** The Validate endpoint *)

(** The response of [validate_token] has the keys [valid] and [user_id]
    and no other. *)
Lemma validate_token_keys (jwt_decode : string -> option (gmap string json))
    (token : string) (d : gmap string json) :
  validate_token jwt_decode token = Ok d ->
  dom d = {[ "valid"; "user_id" ]} /\ d !! "role" = None.
Proof.
  unfold validate_token. destruct (jwt_decode token); [|discriminate].
  intros [= <-]. split.
  - rewrite !dom_insert_L, dom_empty_L. set_solver.
  - reflexivity.
Qed.

(** C7, as the code runs: for a token whose claims carry the role "admin",
    the Validate endpoint answers with [valid] and [user_id] only; the
    role is not in the response, and the role gate of the timetable
    service, fed by this endpoint, refuses the administrator. *)
Lemma validate_token_omits_role :
  (Sample.admin_claims "t0k3n" ≫= lookup "role") = Some (JStr "admin")
  /\ validate_token Sample.admin_claims "t0k3n"
     = Ok (<["valid" := JBool true]> (<["user_id" := JInt 5]> ∅))
  /\ (<["valid" := JBool true]> (<["user_id" := JInt 5]> ∅)
        : gmap string json) !! "role" = None
  /\ admin_or_manager_required (Validate_endpoint Sample.admin_claims)
       Sample.only_hospital_1 "t0k3n" Sample.three_rows
     = (Raise forbidden, log_request Sample.three_rows (GetValidate "t0k3n")).
Proof.
  split; [|split; [|split]]; vm_compute; reflexivity.
Qed.

(** * Further properties of the code *)

(** ** The validator, completed *)

(** The alignment error is raised for exactly the pairs in order, lasting
    at most twelve hours, one of whose ends is off the half-hour grid
    (minute not a multiple of 30, or seconds not zero). *)
Theorem validate_time_range_alignment_error (from_time to_time : datetime) :
  valid from_time = true -> valid to_time = true ->
  validate_time_range from_time to_time = Raise alignment_error
  <-> instant from_time < instant to_time
      /\ instant to_time - instant from_time <= TWELVE_HOURS
      /\ ~ (aligned from_time /\ aligned to_time).
Proof.
  intros Vf Vt.
  rewrite <- (le_false_instant from_time to_time Vf Vt).
  rewrite <- total_seconds_gt_false, <- aligned_test.
  unfold validate_time_range.
  destruct (le to_time from_time);
    [split; [discriminate | intros [? _]; discriminate]|].
  destruct (total_seconds_gt _ _);
    [split; [discriminate | intros (_ & ? & _); discriminate]|].
  match goal with |- context [if ?b then _ else _] => destruct b end.
  - split; [|reflexivity]. intros _. repeat split; discriminate.
  - split; [discriminate|]. intros (_ & _ & N). now destruct N.
Qed.

(** 09:05 to 10:00 and 09:00:30 to 10:00 are both off the grid. *)
Lemma validate_time_range_alignment_error_witness :
  validate_time_range (Sample.at_time 9 5 0 0) (Sample.at_time 10 0 0 0)
  = Raise alignment_error
  /\ validate_time_range (Sample.at_time 9 0 30 0) (Sample.at_time 10 0 0 0)
     = Raise alignment_error.
Proof.
  split.
  - apply (validate_time_range_alignment_error
             (Sample.at_time 9 5 0 0) (Sample.at_time 10 0 0 0) eq_refl eq_refl).
    split; [reflexivity|]. split; [vm_compute; discriminate|].
    intros [[H _] _]. vm_compute in H. discriminate.
  - apply (validate_time_range_alignment_error
             (Sample.at_time 9 0 30 0) (Sample.at_time 10 0 0 0) eq_refl eq_refl).
    split; [reflexivity|]. split; [vm_compute; discriminate|].
    intros [[_ H] _]. vm_compute in H. discriminate.
Defined.

Lemma aligned_instant (t : datetime) :
  valid t = true -> aligned t -> microsecond t = 0 ->
  exists n, instant t = n * HALF_HOUR.
Proof.
  intros V [Hm Hs] Hus.
  apply PyDatetimeFacts.valid_bounds in V as (_ & _ & _ & _ & Hmi & _ & _).
  exists ((toordinal t * 24 + hour t) * 2 + minute t / 30).
  unfold instant, HALF_HOUR. rewrite Hs, Hus.
  pose proof (Z.div_mod (minute t) 30 ltac:(lia)). lia.
Qed.

(** An accepted slot whose two ends carry no microseconds lasts a whole
    number of half hours, at least one and at most twenty-four. *)
Theorem validate_time_range_half_hours (from_time to_time : datetime) :
  valid from_time = true -> valid to_time = true ->
  microsecond from_time = 0 -> microsecond to_time = 0 ->
  validate_time_range from_time to_time = Ok tt ->
  exists n, 1 <= n <= 24
            /\ instant to_time - instant from_time = n * HALF_HOUR.
Proof.
  intros Vf Vt Uf Ut Hok.
  apply validate_time_range_Ok in Hok as (Hord & Hdur & Af & At); [|assumption..].
  destruct (aligned_instant from_time Vf Af Uf) as [a Ha].
  destruct (aligned_instant to_time Vt At Ut) as [b Hb].
  exists (b - a). unfold TWELVE_HOURS, HALF_HOUR in *. lia.
Qed.

Lemma validate_time_range_half_hours_witness :
  exists n, 1 <= n <= 24
            /\ instant (Sample.at_time 14 0 0 0)
               - instant (Sample.at_time 11 30 0 0) = n * HALF_HOUR.
Proof.
  apply (validate_time_range_half_hours
           (Sample.at_time 11 30 0 0) (Sample.at_time 14 0 0 0));
    reflexivity.
Defined.

(** Two datetimes that differ in the microsecond field only, the second
    one later, are accepted when their common minute is a multiple of 30
    and their common second is zero: the validator admits slots shorter
    than one second. *)
Theorem validate_time_range_subsecond_slot
    (t : datetime) (us : Z) :
  valid t = true -> aligned t ->
  microsecond t < us <= 999999 ->
  let to_time :=
    mk_datetime (year t) (month t) (day t) (hour t) (minute t) (second t) us in
  validate_time_range t to_time = Ok tt
  /\ instant to_time - instant t < 1000000.
Proof.
  intros V A Hus to_time.
  pose proof (PyDatetimeFacts.valid_bounds t V) as B.
  assert (valid to_time = true) as V'.
  { unfold valid in *. subst to_time; cbn.
    rewrite !andb_true_iff, !Z.leb_le in *. lia. }
  assert (instant to_time - instant t = us - microsecond t) as D.
  { subst to_time. unfold instant, toordinal; cbn. lia. }
  split; [|lia].
  apply validate_time_range_Ok; try assumption.
  unfold TWELVE_HOURS. split; [lia|]. split; [lia|].
  split; [exact A|]. exact A.
Qed.

Lemma validate_time_range_subsecond_slot_witness :
  validate_time_range (Sample.at_time 9 0 0 0) (Sample.at_time 9 0 0 1) = Ok tt.
Proof.
  apply (validate_time_range_subsecond_slot (Sample.at_time 9 0 0 0) 1).
  - reflexivity.
  - split; reflexivity.
  - cbn. lia.
Defined.

(** ** The token check *)

Section TokenCheck.

Variable auth_service : string -> http_result.
Variable hospital_service : Z -> http_result.

Lemma verify_token_run (token : string) (w : world) :
  verify_token auth_service hospital_service token w
  = (match auth_service token with
     | TransportError => Raise (Unhandled "httpx.TransportError")
     | Response status_code body =>
         if status_code =? 200 then
           match body with
           | None => Raise (Unhandled "JSONDecodeError")
           | Some (JObj d) =>
               if truthy (dict_get d "valid") then Ok d
               else Raise invalid_token
           | Some _ => Raise (Unhandled "AttributeError")
           end
         else Raise invalid_token
     end,
     log_request w (GetValidate token)).
Proof.
  unfold verify_token. rewrite bind_run. cbn.
  destruct (auth_service token) as [status_code body|]; [|reflexivity].
  destruct (status_code =? 200); cbn; [|reflexivity].
  rewrite bind_run.
  destruct body as [v|]; cbn; [|reflexivity].
  destruct v; try reflexivity.
  destruct (truthy _); reflexivity.
Qed.

Lemma admin_or_manager_required_world (token : string) (w w1 : world)
    (r : result unit) :
  admin_or_manager_required auth_service hospital_service token w = (r, w1) ->
  w1 = log_request w (GetValidate token).
Proof.
  rewrite admin_or_manager_required_run.
  destruct (verify_token _ _ token w) as [[d|e] w0] eqn:V;
    apply verify_token_world in V; now intros [= _ <-].
Qed.

Lemma delete_timetable_run (id : Z) (w : world) :
  delete_timetable id w
  = match table w !! id with
    | None => (Raise timetable_not_found, w)
    | Some _ =>
        (Ok tt, mk_world (delete id (table w)) (next_id w) (outbound w))
    end.
Proof.
  unfold delete_timetable. rewrite bind_run. cbn.
  destruct (table w !! id); reflexivity.
Qed.

End TokenCheck.

(** The token check accepts exactly a 200 answer whose body is a JSON
    object with a truthy [valid] entry, and hands that object on; it makes
    one outbound request and touches nothing else. *)
Theorem verify_token_accepts_iff
    (auth_service : string -> http_result) (hospital_service : Z -> http_result)
    (token : string) (d : gmap string json) (w w1 : world) :
  verify_token auth_service hospital_service token w = (Ok d, w1)
  <-> auth_service token = Response 200 (Some (JObj d))
      /\ truthy (dict_get d "valid") = true
      /\ w1 = log_request w (GetValidate token).
Proof.
  rewrite verify_token_run.
  destruct (auth_service token) as [status_code body|].
  2: { split; [discriminate | intros [? _]; discriminate]. }
  destruct (Z.eqb_spec status_code 200) as [->|Hne].
  2: { split; [discriminate | intros [[= ?] _]; contradiction]. }
  destruct body as [v|].
  2: { split; [discriminate | intros [? _]; discriminate]. }
  destruct v; try (split; [discriminate | intros [? _]; discriminate]).
  destruct (truthy (dict_get m "valid")) eqn:T.
  - split.
    + intros [= <- <-]. auto.
    + intros ([= <-] & _ & ->). reflexivity.
  - split; [discriminate|]. intros ([= <-] & T' & _). congruence.
Qed.

(** Whatever the authentication service answers with a status other than
    200, and whenever its 200 answer has a missing or falsy [valid] entry,
    the token check raises 401 "Invalid token". *)
Theorem verify_token_rejects
    (auth_service : string -> http_result) (hospital_service : Z -> http_result)
    (token : string) (status_code : Z) (body : option json) (w : world) :
  auth_service token = Response status_code body ->
  status_code <> 200
  \/ (exists d, body = Some (JObj d) /\ truthy (dict_get d "valid") = false) ->
  verify_token auth_service hospital_service token w
  = (Raise invalid_token, log_request w (GetValidate token)).
Proof.
  intros Hresp Hbad. rewrite verify_token_run, Hresp.
  destruct (Z.eqb_spec status_code 200) as [->|Hne]; [|reflexivity].
  destruct Hbad as [Hne | (d & -> & T)]; [contradiction|].
  now rewrite T.
Qed.

(** A 200 answer that says nothing about [valid] is refused. *)
Lemma verify_token_rejects_witness :
  verify_token (fun _ => Response 200 (Some (JObj {[ "role" := JStr "admin" ]})))
    Sample.only_hospital_1 "t0k3n" Sample.three_rows
  = (Raise invalid_token, log_request Sample.three_rows (GetValidate "t0k3n")).
Proof.
  apply (verify_token_rejects _ Sample.only_hospital_1 "t0k3n" 200
           (Some (JObj {[ "role" := JStr "admin" ]})) Sample.three_rows eq_refl).
  right. eexists. split; reflexivity.
Defined.

(** ** Delete *)

(** Deleting a stored timetable removes that row and no other, keeps the
    key sequence and asks no other service; a second delete of the same id,
    like the delete of any id that is not stored, raises 404 "Timetable not
    found" and changes nothing. *)
Theorem delete_timetable_removes (id : Z) (row : Timetable.t) (w : world) :
  table w !! id = Some row ->
  exists w1,
    delete_timetable id w = (Ok tt, w1)
    /\ table w1 !! id = None
    /\ (forall k, k <> id -> table w1 !! k = table w !! k)
    /\ next_id w1 = next_id w /\ outbound w1 = outbound w
    /\ delete_timetable id w1 = (Raise timetable_not_found, w1).
Proof.
  intros Hrow. eexists. rewrite delete_timetable_run, Hrow.
  split; [reflexivity|]. cbn.
  split; [apply lookup_delete_eq|].
  split; [intros k Hk; now apply lookup_delete_ne|].
  split; [reflexivity|]. split; [reflexivity|].
  rewrite delete_timetable_run; cbn. now rewrite lookup_delete_eq.
Qed.

Lemma delete_timetable_removes_witness :
  exists w1,
    delete_timetable 2 Sample.three_rows = (Ok tt, w1)
    /\ table w1 !! 2 = None
    /\ table w1 !! 1 = table Sample.three_rows !! 1.
Proof.
  destruct (delete_timetable_removes 2 _ Sample.three_rows eq_refl)
    as (w1 & Hdel & Hgone & Hother & _).
  exists w1. split; [exact Hdel|]. split; [exact Hgone|].
  apply Hother. discriminate.
Defined.

(** ** Update *)

(** A validated update of a stored timetable returns and stores a row with
    the id of the old row and all five columns of the body, whatever the
    old columns were; no other row, and not the key sequence, changes; the
    same update applied again changes nothing more. *)
Theorem update_timetable_replaces
    (id : Z) (existing : Timetable.t) (timetable : TimetableCreate.t)
    (w : world) :
  table w !! id = Some existing ->
  validate_time_range (TimetableCreate.from_time timetable)
                      (TimetableCreate.to_time timetable) = Ok tt ->
  exists w1,
    let row := new_row_with_id (Timetable.id existing) timetable in
    update_timetable id timetable w = (Ok row, w1)
    /\ table w1 !! id = Some row
    /\ (forall k, k <> id -> table w1 !! k = table w !! k)
    /\ size (table w1) = size (table w)
    /\ next_id w1 = next_id w
    /\ update_timetable id timetable w1 = (Ok row, w1).
Proof.
  intros Hrow Hvalid. eexists. cbv zeta.
  rewrite update_timetable_run, Hvalid, Hrow. cbv zeta.
  split; [reflexivity|]. cbn.
  split; [apply lookup_insert_eq|].
  split; [intros k Hk; now apply lookup_insert_ne|].
  split.
  { apply map_size_insert_Some. rewrite Hrow. eauto. }
  split; [reflexivity|].
  rewrite update_timetable_run, Hvalid; cbn.
  rewrite lookup_insert_eq. cbv zeta.
  unfold set_attributes; cbn. now rewrite insert_insert_eq.
Qed.

(** Row 2 of the sample store moves to hospital 5 and to the afternoon. *)
Lemma update_timetable_replaces_witness :
  exists w1,
    update_timetable 2
      (Sample.slot 5 (Sample.at_time 15 0 0 0) (Sample.at_time 16 30 0 0))
      Sample.three_rows
    = (Ok (Sample.stored 2 5 (Sample.at_time 15 0 0 0)
                             (Sample.at_time 16 30 0 0)), w1)
    /\ table w1 !! 3 = table Sample.three_rows !! 3.
Proof.
  destruct (update_timetable_replaces 2 _
              (Sample.slot 5 (Sample.at_time 15 0 0 0)
                             (Sample.at_time 16 30 0 0))
              Sample.three_rows eq_refl eq_refl)
    as (w1 & Hupd & _ & Hother & _).
  exists w1. split; [exact Hupd|]. apply Hother. discriminate.
Defined.

(** ** Create *)

Section Create.

Variable auth_service : string -> http_result.
Variable hospital_service : Z -> http_result.

(** When create succeeds, and how. *)
Lemma create_timetable_Ok (timetable : TimetableCreate.t) (w w1 : world)
    (row : Timetable.t) :
  create_timetable auth_service hospital_service timetable w = (Ok row, w1)
  <-> validate_time_range (TimetableCreate.from_time timetable)
                          (TimetableCreate.to_time timetable) = Ok tt
      /\ (exists body,
            hospital_service (TimetableCreate.hospital_id timetable)
            = Response 200 body)
      /\ row = new_row (next_id w) timetable
      /\ w1 = mk_world (<[next_id w := row]> (table w)) (next_id w + 1)
                       (outbound w
                        ++ [GetHospital (TimetableCreate.hospital_id timetable)]).
Proof.
  rewrite create_timetable_run, hospital_exists_run.
  destruct (validate_time_range _ _) as [[]|e0].
  2: { split; [discriminate | intros [? _]; discriminate]. }
  destruct (hospital_service _) as [status_code body|].
  2: { split; [discriminate | intros (_ & [? ?] & _); discriminate]. }
  destruct (Z.eqb_spec status_code 200) as [->|Hne].
  2: { split; [discriminate | intros (_ & [? [= ?]] & _); contradiction]. }
  cbn. split.
  - intros [= <- <-]. split; [reflexivity|]. split; [eauto|].
    split; reflexivity.
  - intros (_ & _ & -> & ->). reflexivity.
Qed.

End Create.

(** In a store whose keys were all drawn from the sequence, a successful
    create stores its row under a key no row had, carries that key in the
    returned row together with the five columns of the body, keeps every
    earlier row and grows the table by one. *)
Theorem create_timetable_fresh_key
    (auth_service : string -> http_result) (hospital_service : Z -> http_result)
    (timetable : TimetableCreate.t) (row : Timetable.t) (w w1 : world) :
  keys_consistent w ->
  create_timetable auth_service hospital_service timetable w = (Ok row, w1) ->
  table w !! next_id w = None
  /\ row = new_row_with_id (Some (next_id w)) timetable
  /\ table w1 !! next_id w = Some row
  /\ (forall k old, table w !! k = Some old -> table w1 !! k = Some old)
  /\ size (table w1) = S (size (table w)).
Proof.
  intros Hkeys Hrun.
  apply create_timetable_Ok in Hrun as (_ & _ & -> & ->).
  assert (table w !! next_id w = None) as Hfresh.
  { destruct (table w !! next_id w) eqn:L; [|reflexivity].
    apply Hkeys in L as [_ L]. lia. }
  split; [exact Hfresh|]. split; [reflexivity|]. cbn.
  split; [apply lookup_insert_eq|].
  split.
  - intros k old Hold. rewrite lookup_insert_ne; [exact Hold|].
    intros <-. congruence.
  - now apply map_size_insert_None.
Qed.

Lemma three_rows_keys : keys_consistent Sample.three_rows.
Proof.
  intros k row. unfold Sample.three_rows; cbn.
  rewrite !lookup_insert, lookup_empty.
  repeat case_decide; subst; intros [= <-]; cbn; split; (reflexivity || lia).
Qed.

Lemma create_timetable_fresh_key_witness :
  let w1 :=
    (create_timetable (Sample.auth_with_role "admin") Sample.only_hospital_1
       (Sample.slot 1 (Sample.at_time 15 0 0 0) (Sample.at_time 16 0 0 0))
       Sample.three_rows).2 in
  table w1 !! 4
  = Some (Sample.stored 4 1 (Sample.at_time 15 0 0 0) (Sample.at_time 16 0 0 0))
  /\ size (table w1) = 4%nat.
Proof.
  cbv zeta.
  destruct (create_timetable_fresh_key (Sample.auth_with_role "admin")
              Sample.only_hospital_1
              (Sample.slot 1 (Sample.at_time 15 0 0 0) (Sample.at_time 16 0 0 0))
              _ Sample.three_rows _ three_rows_keys eq_refl)
    as (_ & _ & Hnew & _ & Hsize).
  split; [exact Hnew | exact Hsize].
Defined.

(** Nothing makes a slot unique: the same validated body, for a hospital
    the directory knows, is created twice in a row, and the store then
    holds two rows that differ in their id only. *)
Theorem create_timetable_twice
    (auth_service : string -> http_result) (hospital_service : Z -> http_result)
    (timetable : TimetableCreate.t) (body : option json) (w : world) :
  validate_time_range (TimetableCreate.from_time timetable)
                      (TimetableCreate.to_time timetable) = Ok tt ->
  hospital_service (TimetableCreate.hospital_id timetable)
  = Response 200 body ->
  exists w1 w2,
    let k := next_id w in
    create_timetable auth_service hospital_service timetable w
    = (Ok (new_row_with_id (Some k) timetable), w1)
    /\ create_timetable auth_service hospital_service timetable w1
       = (Ok (new_row_with_id (Some (k + 1)) timetable), w2)
    /\ table w2 !! k = Some (new_row_with_id (Some k) timetable)
    /\ table w2 !! (k + 1) = Some (new_row_with_id (Some (k + 1)) timetable).
Proof.
  intros Hvalid Hresp. eexists _, _. cbv zeta.
  split; [|split; [|split]].
  - apply create_timetable_Ok.
    split; [exact Hvalid|]. split; [eauto|]. split; reflexivity.
  - apply create_timetable_Ok.
    split; [exact Hvalid|]. split; [eauto|]. split; reflexivity.
  - cbn. rewrite lookup_insert_ne by lia. apply lookup_insert_eq.
  - cbn. apply lookup_insert_eq.
Qed.

Lemma create_timetable_twice_witness :
  exists w1 w2,
    create_timetable (Sample.auth_with_role "admin") Sample.only_hospital_1
      (Sample.slot 1 (Sample.at_time 9 0 0 0) (Sample.at_time 10 0 0 0))
      Sample.three_rows
    = (Ok (Sample.stored 4 1 (Sample.at_time 9 0 0 0) (Sample.at_time 10 0 0 0)),
       w1)
    /\ create_timetable (Sample.auth_with_role "admin") Sample.only_hospital_1
         (Sample.slot 1 (Sample.at_time 9 0 0 0) (Sample.at_time 10 0 0 0)) w1
       = (Ok (Sample.stored 5 1 (Sample.at_time 9 0 0 0)
                                (Sample.at_time 10 0 0 0)), w2).
Proof.
  destruct (create_timetable_twice (Sample.auth_with_role "admin")
              Sample.only_hospital_1
              (Sample.slot 1 (Sample.at_time 9 0 0 0) (Sample.at_time 10 0 0 0))
              (Some (JObj ∅)) Sample.three_rows eq_refl eq_refl)
    as (w1 & w2 & H1 & H2 & _).
  exists w1, w2. split; [exact H1 | exact H2].
Defined.

Lemma cmp_refl (t : datetime) : cmp t t = Eq.
Proof.
  unfold cmp. induction (fields t) as [|x l IH]; [reflexivity|].
  cbn. now rewrite Z.compare_refl.
Qed.

(** A created row is found again: the query for its hospital over the
    window from its start to its end returns it. *)
Theorem create_then_query
    (auth_service : string -> http_result) (hospital_service : Z -> http_result)
    (timetable : TimetableCreate.t) (row : Timetable.t) (w w1 : world) :
  create_timetable auth_service hospital_service timetable w = (Ok row, w1) ->
  exists rows,
    get_timetable_for_hospital (TimetableCreate.hospital_id timetable)
      (TimetableCreate.from_time timetable) (TimetableCreate.to_time timetable)
      w1 = (Ok rows, w1)
    /\ row ∈ rows.
Proof.
  intros Hrun. apply create_timetable_Ok in Hrun as (_ & _ & -> & ->).
  eexists. split; [reflexivity|].
  apply list_elem_of_fmap. exists (next_id w, new_row (next_id w) timetable).
  split; [reflexivity|].
  apply elem_of_map_to_list, map_lookup_filter_Some.
  split; [apply lookup_insert_eq|].
  cbn [snd]. unfold in_window, new_row, new_row_with_id.
  cbn [Timetable.hospital_id Timetable.from_time Timetable.to_time].
  unfold ge, le. now rewrite Z.eqb_refl, !cmp_refl.
Qed.

Lemma create_then_query_witness :
  exists rows,
    get_timetable_for_hospital 1 (Sample.at_time 15 0 0 0)
      (Sample.at_time 16 0 0 0)
      (create_timetable (Sample.auth_with_role "admin") Sample.only_hospital_1
         (Sample.slot 1 (Sample.at_time 15 0 0 0) (Sample.at_time 16 0 0 0))
         Sample.three_rows).2
    = (Ok rows,
       (create_timetable (Sample.auth_with_role "admin") Sample.only_hospital_1
          (Sample.slot 1 (Sample.at_time 15 0 0 0) (Sample.at_time 16 0 0 0))
          Sample.three_rows).2)
    /\ Sample.stored 4 1 (Sample.at_time 15 0 0 0) (Sample.at_time 16 0 0 0)
       ∈ rows.
Proof.
  apply (create_then_query (Sample.auth_with_role "admin")
           Sample.only_hospital_1
           (Sample.slot 1 (Sample.at_time 15 0 0 0) (Sample.at_time 16 0 0 0))
           _ Sample.three_rows _ eq_refl).
Defined.

(** Deleting the row a create has just stored gives back the table as it
    was before the create; the key is spent all the same. *)
Theorem create_then_delete
    (auth_service : string -> http_result) (hospital_service : Z -> http_result)
    (timetable : TimetableCreate.t) (row : Timetable.t) (w w1 : world) :
  keys_consistent w ->
  create_timetable auth_service hospital_service timetable w = (Ok row, w1) ->
  exists w2,
    delete_timetable (next_id w) w1 = (Ok tt, w2)
    /\ table w2 = table w
    /\ next_id w2 = next_id w + 1.
Proof.
  intros Hkeys Hrun.
  apply create_timetable_Ok in Hrun as (_ & _ & -> & ->).
  eexists. rewrite delete_timetable_run; cbn. rewrite lookup_insert_eq.
  split; [reflexivity|]. cbn. split; [|reflexivity].
  rewrite delete_insert_eq. apply delete_id.
  destruct (table w !! next_id w) eqn:L; [|reflexivity].
  apply Hkeys in L as [_ L]. lia.
Qed.

Lemma create_then_delete_witness :
  exists w2,
    delete_timetable 4
      (create_timetable (Sample.auth_with_role "admin") Sample.only_hospital_1
         (Sample.slot 1 (Sample.at_time 15 0 0 0) (Sample.at_time 16 0 0 0))
         Sample.three_rows).2
    = (Ok tt, w2)
    /\ table w2 = table Sample.three_rows
    /\ next_id w2 = 5.
Proof.
  apply (create_then_delete (Sample.auth_with_role "admin")
           Sample.only_hospital_1
           (Sample.slot 1 (Sample.at_time 15 0 0 0) (Sample.at_time 16 0 0 0))
           _ Sample.three_rows _ three_rows_keys eq_refl).
Defined.

(** ** Invariants of the service *)

Lemma transition_refl (w : world) : transition w w.
Proof.
  pose proof (transition_none w []) as T. rewrite app_nil_r in T.
  now destruct w.
Qed.

Lemma serve_transition (x : exchange) (w : world) : transition w (serve x w).
Proof.
  unfold serve.
  destruct (incoming x) as [token body | token id body | token id
                           | token id from_time to_time].
  - unfold POST_Timetable_with.
    destruct (session_outcome x) as [[]|es]; [|apply transition_refl].
    rewrite bind_lift_Ok, bind_run.
    destruct (admin_or_manager_required _ _ token w) as [[[]|e] w1] eqn:G;
      apply admin_or_manager_required_world in G as ->;
      [|apply transition_none].
    rewrite create_timetable_run, hospital_exists_run.
    destruct (validate_time_range _ _) as [[]|e0] eqn:V;
      [|apply transition_none].
    destruct (hospital_answers x _) as [status_code rbody|];
      [destruct (status_code =? 200)|]; unfold log_request; cbn;
      rewrite <- app_assoc.
    + now apply transition_insert.
    + apply transition_none.
    + apply transition_none.
  - unfold PUT_Timetable_with.
    destruct (session_outcome x) as [[]|es]; [|apply transition_refl].
    rewrite bind_lift_Ok, bind_run.
    destruct (admin_or_manager_required _ _ token w) as [[[]|e] w1] eqn:G;
      apply admin_or_manager_required_world in G as ->;
      [|apply transition_none].
    rewrite update_timetable_run.
    destruct (validate_time_range _ _) as [[]|e0] eqn:V;
      [|apply transition_none].
    cbn. destruct (table w !! id) as [existing|] eqn:L; cbn.
    + now apply transition_update.
    + apply transition_none.
  - unfold DELETE_Timetable_with.
    destruct (session_outcome x) as [[]|es]; [|apply transition_refl].
    rewrite bind_lift_Ok, bind_run.
    destruct (admin_or_manager_required _ _ token w) as [[[]|e] w1] eqn:G;
      apply admin_or_manager_required_world in G as ->;
      [|apply transition_none].
    rewrite delete_timetable_run. cbn.
    destruct (table w !! id) as [existing|] eqn:L; cbn.
    + now apply (transition_delete w _ id existing).
    + apply transition_none.
  - unfold GET_Timetable_Hospital_with.
    destruct (session_outcome x) as [[]|es]; [|apply transition_refl].
    rewrite bind_lift_Ok, bind_run.
    destruct (verify_token _ _ token w) as [[d|e] w1] eqn:G;
      apply verify_token_world in G as ->; apply transition_none.
Qed.

Lemma transition_keys_consistent (w w' : world) :
  transition w w' -> keys_consistent w -> keys_consistent w'.
Proof.
  intros T K k row.
  destruct T as [rqs | rqs body V | rqs id existing body L V
                | rqs id existing L]; cbn.
  - apply K.
  - rewrite lookup_insert. case_decide as E.
    + intros [= <-]. subst k. cbn. split; [reflexivity | lia].
    + intros H. apply K in H as [H1 H2]. split; [exact H1 | lia].
  - rewrite lookup_insert. case_decide as E.
    + intros [= <-]. subst k. apply K in L as [L1 L2]. cbn. auto.
    + apply K.
  - rewrite lookup_delete. case_decide; [discriminate | apply K].
Qed.

Lemma transition_stored_validated (w w' : world) :
  transition w w' -> stored_validated w -> stored_validated w'.
Proof.
  intros T S k row.
  destruct T as [rqs | rqs body V | rqs id existing body L V
                | rqs id existing L]; cbn.
  - apply S.
  - rewrite lookup_insert. case_decide; [intros [= <-]; exact V | apply S].
  - rewrite lookup_insert. case_decide; [intros [= <-]; exact V | apply S].
  - rewrite lookup_delete. case_decide; [discriminate | apply S].
Qed.

Lemma transition_never_reuses (w w' : world) (k : Z) :
  transition w w' ->
  k < next_id w -> table w !! k = None ->
  k < next_id w' /\ table w' !! k = None.
Proof.
  intros T Hk Hnone.
  destruct T as [rqs | rqs body V | rqs id existing body L V
                | rqs id existing L]; cbn.
  - auto.
  - split; [lia|]. rewrite lookup_insert_ne by lia. exact Hnone.
  - split; [exact Hk|]. rewrite lookup_insert_ne; [exact Hnone|].
    intros <-. congruence.
  - split; [exact Hk|]. rewrite lookup_delete. now case_decide.
Qed.

(** Whatever requests arrive, with whatever tokens and bodies, and whatever
    the collaborators answer, every stored row stays under the key it
    carries and every key in use was drawn from the sequence. *)
Theorem serve_all_keys_consistent (xs : list exchange) (w : world) :
  keys_consistent w -> keys_consistent (serve_all xs w).
Proof.
  revert w. induction xs as [|x xs IH]; intros w K; [exact K|].
  cbn. apply IH. eapply transition_keys_consistent; [apply serve_transition|].
  exact K.
Qed.

(** Whatever requests arrive, no row that the validator would refuse ever
    enters the store: if every stored slot is in order, at most twelve
    hours long and on the half-hour grid, this is so after any number of
    creates, updates and deletes. *)
Theorem serve_all_stored_validated (xs : list exchange) (w : world) :
  stored_validated w -> stored_validated (serve_all xs w).
Proof.
  revert w. induction xs as [|x xs IH]; intros w S; [exact S|].
  cbn. apply IH. eapply transition_stored_validated; [apply serve_transition|].
  exact S.
Qed.

(** An id is never given out twice: a key below the sequence that holds no
    row (a deleted timetable) holds none after any further requests. *)
Theorem serve_all_never_reuses (xs : list exchange) (w : world) (k : Z) :
  k < next_id w -> table w !! k = None ->
  table (serve_all xs w) !! k = None.
Proof.
  revert w. induction xs as [|x xs IH]; intros w Hk Hnone; [exact Hnone|].
  cbn. destruct (transition_never_reuses w (serve x w) k
                   (serve_transition x w) Hk Hnone) as [Hk' Hnone'].
  now apply IH.
Qed.

Lemma three_rows_validated : stored_validated Sample.three_rows.
Proof.
  intros k row. unfold Sample.three_rows; cbn.
  rewrite !lookup_insert, lookup_empty.
  repeat case_decide; subst; intros [= <-]; reflexivity.
Qed.

Lemma serve_all_keys_consistent_witness :
  keys_consistent
    (serve_all [SampleRequests.delete_2; SampleRequests.post_afternoon]
               Sample.three_rows).
Proof.
  apply (serve_all_keys_consistent
           [SampleRequests.delete_2; SampleRequests.post_afternoon]
           Sample.three_rows three_rows_keys).
Defined.

Lemma serve_all_stored_validated_witness :
  stored_validated
    (serve_all [SampleRequests.put_too_long; SampleRequests.post_afternoon]
               Sample.three_rows).
Proof.
  apply (serve_all_stored_validated
           [SampleRequests.put_too_long; SampleRequests.post_afternoon]
           Sample.three_rows three_rows_validated).
Defined.

(** Timetable 2 is deleted; the create that follows gets id 4, not 2. *)
Lemma serve_all_never_reuses_witness :
  table (serve_all [SampleRequests.post_afternoon]
                   (serve SampleRequests.delete_2 Sample.three_rows)) !! 2
  = None.
Proof.
  apply (serve_all_never_reuses [SampleRequests.post_afternoon]
           (serve SampleRequests.delete_2 Sample.three_rows) 2);
    reflexivity.
Defined.

(** ** Outbound requests *)

(** Which handler calls which service.  The role gate makes one call, to
    the authentication service.  The create handler asks the hospital
    directory once, for the hospital of the body, and only after the
    validator has passed; it asks nobody when the validator raises.  The
    update, delete and query handlers make no outbound request at all. *)
Theorem handlers_outbound
    (auth_service : string -> http_result) (hospital_service : Z -> http_result)
    (w : world) :
  (forall token,
     outbound (admin_or_manager_required auth_service hospital_service
                 token w).2
     = outbound w ++ [GetValidate token])
  /\ (forall timetable,
        outbound (create_timetable auth_service hospital_service
                    timetable w).2
        = outbound w
          ++ match validate_time_range (TimetableCreate.from_time timetable)
                                       (TimetableCreate.to_time timetable) with
             | Ok _ => [GetHospital (TimetableCreate.hospital_id timetable)]
             | Raise _ => []
             end)
  /\ (forall id timetable,
        outbound (update_timetable id timetable w).2 = outbound w)
  /\ (forall id, outbound (delete_timetable id w).2 = outbound w)
  /\ (forall id from_time to_time,
        outbound (get_timetable_for_hospital id from_time to_time w).2
        = outbound w).
Proof.
  split; [|split; [|split; [|split]]].
  - intros token.
    destruct (admin_or_manager_required auth_service hospital_service token w)
      as [r w1] eqn:G.
    now apply admin_or_manager_required_world in G as ->.
  - intros timetable. rewrite create_timetable_run, hospital_exists_run.
    destruct (validate_time_range _ _) as [[]|e0]; cbn;
      [|now rewrite app_nil_r].
    destruct (hospital_service _) as [status_code rbody|];
      [destruct (status_code =? 200)|]; reflexivity.
  - intros id timetable. rewrite update_timetable_run.
    destruct (validate_time_range _ _) as [[]|e0]; [|reflexivity].
    destruct (table w !! id); reflexivity.
  - intros id. rewrite delete_timetable_run.
    destruct (table w !! id); reflexivity.
  - reflexivity.
Qed.

(** ** The timetable service behind the Validate endpoint *)

(** With the account service's Validate endpoint as its authentication
    service, the timetable service accepts exactly the tokens that decode:
    the dictionary it then works with has the entries [valid] and
    [user_id] and no role. *)
Theorem verify_token_behind_Validate
    (jwt_decode : string -> option (gmap string json))
    (hospital_service : Z -> http_result)
    (token : string) (d : gmap string json) (w w1 : world) :
  verify_token (Validate_endpoint jwt_decode) hospital_service token w
  = (Ok d, w1)
  <-> (exists payload,
         jwt_decode token = Some payload
         /\ d = <["valid" := JBool true]>
                  (<["user_id" := dict_get payload "user_id"]> ∅))
      /\ w1 = log_request w (GetValidate token).
Proof.
  rewrite verify_token_run. unfold Validate_endpoint, validate_token.
  destruct (jwt_decode token) as [payload|]; cbn.
  - split.
    + intros [= <- <-]. split; [eauto | reflexivity].
    + intros [(p & [= <-] & ->) ->]. reflexivity.
  - split.
    + intros [= ].
    + intros [(p & [= ] & _) _].
Qed.

Lemma gate_behind_Validate
    (jwt_decode : string -> option (gmap string json))
    (hospital_service : Z -> http_result) (token : string) (w : world) :
  exists e,
    admin_or_manager_required (Validate_endpoint jwt_decode) hospital_service
      token w
    = (Raise e, log_request w (GetValidate token))
    /\ (e = forbidden \/ e = invalid_token).
Proof.
  rewrite admin_or_manager_required_run, verify_token_run.
  unfold Validate_endpoint, validate_token.
  destruct (jwt_decode token) as [payload|]; cbn.
  - exists forbidden. split; [reflexivity | auto].
  - exists invalid_token. split; [reflexivity | auto].
Qed.

Lemma serve_behind_Validate (x : exchange) (w : world)
    (jwt_decode : string -> option (gmap string json)) :
  auth_answers x = Validate_endpoint jwt_decode ->
  table (serve x w) = table w /\ next_id (serve x w) = next_id w.
Proof.
  intros Hauth. unfold serve. rewrite Hauth.
  destruct (incoming x) as [token body | token id body | token id
                           | token id from_time to_time].
  - unfold POST_Timetable_with.
    destruct (session_outcome x) as [[]|es]; [|split; reflexivity].
    rewrite bind_lift_Ok, bind_run.
    destruct (gate_behind_Validate jwt_decode (hospital_answers x) token w)
      as (e & -> & _). split; reflexivity.
  - unfold PUT_Timetable_with.
    destruct (session_outcome x) as [[]|es]; [|split; reflexivity].
    rewrite bind_lift_Ok, bind_run.
    destruct (gate_behind_Validate jwt_decode (hospital_answers x) token w)
      as (e & -> & _). split; reflexivity.
  - unfold DELETE_Timetable_with.
    destruct (session_outcome x) as [[]|es]; [|split; reflexivity].
    rewrite bind_lift_Ok, bind_run.
    destruct (gate_behind_Validate jwt_decode (hospital_answers x) token w)
      as (e & -> & _). split; reflexivity.
  - unfold GET_Timetable_Hospital_with.
    destruct (session_outcome x) as [[]|es]; [|split; reflexivity].
    rewrite bind_lift_Ok, bind_run.
    destruct (verify_token _ _ token w) as [[d|e] w1] eqn:G;
      apply verify_token_world in G as ->; split; reflexivity.
Qed.

(** With the Validate endpoint as coded behind it, the timetable service
    never writes: whatever tokens, bodies and ids arrive, and whatever the
    hospital directory answers, the table and the key sequence stay as they
    are, because no token passes the role gate. *)
Theorem serve_all_behind_Validate (xs : list exchange) (w : world) :
  Forall (fun x => exists jwt_decode,
                     auth_answers x = Validate_endpoint jwt_decode) xs ->
  table (serve_all xs w) = table w /\ next_id (serve_all xs w) = next_id w.
Proof.
  intros Hall. revert w.
  induction Hall as [|x xs [jwt_decode Hx] _ IH]; intros w; [auto|].
  change (serve_all (x :: xs) w) with (serve_all xs (serve x w)).
  destruct (serve_behind_Validate x w jwt_decode Hx) as [Ht Hn].
  destruct (IH (serve x w)) as [Ht' Hn'].
  split; congruence.
Qed.

Lemma serve_all_behind_Validate_witness :
  table (serve_all
           [mk_exchange (Ok tt) (Validate_endpoint Sample.admin_claims)
              Sample.only_hospital_1
              (PostTimetable "t0k3n"
                 (Sample.slot 1 (Sample.at_time 15 0 0 0)
                                (Sample.at_time 16 0 0 0)));
            mk_exchange (Ok tt) (Validate_endpoint Sample.admin_claims)
              Sample.only_hospital_1 (DeleteTimetable "t0k3n" 2)]
           Sample.three_rows)
  = table Sample.three_rows.
Proof.
  apply (serve_all_behind_Validate _ Sample.three_rows).
  repeat constructor; exists Sample.admin_claims; reflexivity.
Defined.

(** ** Signing in *)

Lemma first_by_username_Some (users : gmap Z User) (name : string) (u : User) :
  first_by_username users name = Some u ->
  exists k, users !! k = Some u /\ username u = name.
Proof.
  unfold first_by_username. intros H.
  apply head_Some_elem_of, list_elem_of_fmap in H as ([k u'] & -> & H).
  apply elem_of_map_to_list, map_lookup_filter_Some in H as [L P].
  exists k. auto.
Qed.

Lemma first_by_username_None (users : gmap Z User) (name : string)
    (k : Z) (u : User) :
  first_by_username users name = None ->
  users !! k = Some u -> username u <> name.
Proof.
  unfold first_by_username. intros H L E.
  apply head_None, fmap_nil_inv, map_to_list_empty_iff in H.
  assert (filter (fun kv : Z * User => username kv.2 = name) users !! k
          = Some u) as F by (apply map_lookup_filter_Some; auto).
  rewrite H, lookup_empty in F. discriminate.
Qed.

Lemma first_by_username_unique (users : gmap Z User) (k : Z) (u : User) :
  unique_usernames users -> users !! k = Some u ->
  first_by_username users (username u) = Some u.
Proof.
  intros U L.
  destruct (first_by_username users (username u)) as [u'|] eqn:F.
  - apply first_by_username_Some in F as (k' & L' & E).
    assert (k' = k) as -> by (eapply U; eauto). congruence.
  - exfalso. now apply (first_by_username_None users (username u) k u F L).
Qed.

(** An unknown username and a wrong password are refused alike: when no
    stored user has both the given name and the given password, sign-in
    raises 401 "Invalid credentials" and issues no token. *)
Theorem sign_in_refuses
    (jwt_encode : gmap string json -> string) (users : gmap Z User)
    (now_access now_refresh : Z) (name pass : string) :
  (forall k u, users !! k = Some u -> username u = name -> password u <> pass) ->
  sign_in jwt_encode users now_access now_refresh name pass
  = Raise invalid_credentials.
Proof.
  intros Hno. unfold sign_in.
  destruct (first_by_username users name) as [u|] eqn:F; [|reflexivity].
  apply first_by_username_Some in F as (k & L & E).
  specialize (Hno k u L E).
  now rewrite bool_decide_eq_false_2.
Qed.

Lemma sign_in_refuses_witness :
  sign_in SampleUsers.encode SampleUsers.users 1000000 1000000
    "alice" "hunter2"
  = Raise invalid_credentials
  /\ sign_in SampleUsers.encode SampleUsers.users 1000000 1000000
       "mallory" "hunter2"
     = Raise invalid_credentials.
Proof.
  split; apply (sign_in_refuses SampleUsers.encode SampleUsers.users);
    intros k u; unfold SampleUsers.users;
    rewrite !lookup_insert, lookup_empty;
    repeat case_decide; intros [= <-]; cbn; discriminate.
Defined.

(** With unique usernames, a stored user signing in with the stored
    password gets two tokens: both carry the user's id and role, the access
    token expires an hour after its clock reading and the refresh token
    seven days after its own.  The password is compared as stored. *)
Theorem sign_in_issues
    (jwt_encode : gmap string json -> string) (users : gmap Z User)
    (now_access now_refresh : Z) (k : Z) (u : User) :
  unique_usernames users -> users !! k = Some u ->
  sign_in jwt_encode users now_access now_refresh (username u) (password u)
  = Ok (mk_Token (jwt_encode (issued_claims u (now_access + 3600)))
                 (jwt_encode (issued_claims u (now_refresh + 604800)))).
Proof.
  intros U L. unfold sign_in.
  rewrite (first_by_username_unique users k u U L).
  rewrite bool_decide_eq_true_2 by reflexivity. reflexivity.
Qed.

Lemma sample_users_unique : unique_usernames SampleUsers.users.
Proof.
  intros k k' u u'. unfold SampleUsers.users.
  rewrite !lookup_insert, !lookup_empty.
  repeat case_decide; subst; intros [= <-] [= <-]; try reflexivity;
    cbn; discriminate.
Qed.

Lemma sign_in_issues_witness :
  sign_in SampleUsers.encode SampleUsers.users 1000000 1000000
    "alice" "s3cret"
  = Ok (mk_Token "access" "refresh").
Proof.
  apply (sign_in_issues SampleUsers.encode SampleUsers.users 1000000 1000000
           5 SampleUsers.alice sample_users_unique eq_refl).
Defined.

(** Sign-in and Validate compose: if the JWT library decodes the two
    issued tokens to the claims they were made from, the Validate endpoint
    answers both with 200, [valid] true and the id of the user who signed
    in.  The refresh token is accepted exactly like the access token. *)
Theorem sign_in_then_Validate
    (jwt_encode : gmap string json -> string)
    (jwt_decode : string -> option (gmap string json))
    (users : gmap Z User) (now_access now_refresh : Z) (k : Z) (u : User) :
  unique_usernames users -> users !! k = Some u ->
  jwt_decode (jwt_encode (issued_claims u (now_access + 3600)))
  = Some (issued_claims u (now_access + 3600)) ->
  jwt_decode (jwt_encode (issued_claims u (now_refresh + 604800)))
  = Some (issued_claims u (now_refresh + 604800)) ->
  exists tokens,
    let answer :=
      Response 200
        (Some (JObj (<["valid" := JBool true]>
                       (<["user_id" := JInt (user_id u)]> ∅)))) in
    sign_in jwt_encode users now_access now_refresh (username u) (password u)
    = Ok tokens
    /\ Validate_endpoint jwt_decode (access_token tokens) = answer
    /\ Validate_endpoint jwt_decode (refresh_token tokens) = answer.
Proof.
  intros U L Ha Hr.
  exists (mk_Token (jwt_encode (issued_claims u (now_access + 3600)))
                   (jwt_encode (issued_claims u (now_refresh + 604800)))).
  cbv zeta. split.
  { unfold sign_in. rewrite (first_by_username_unique users k u U L).
    rewrite bool_decide_eq_true_2 by reflexivity. reflexivity. }
  unfold Validate_endpoint, validate_token; cbn [access_token refresh_token].
  rewrite Ha, Hr. split; reflexivity.
Qed.

Lemma sign_in_then_Validate_witness :
  exists tokens,
    sign_in SampleUsers.encode SampleUsers.users 1000000 1000000
      "alice" "s3cret" = Ok tokens
    /\ Validate_endpoint SampleUsers.decode (refresh_token tokens)
       = Response 200
           (Some (JObj (<["valid" := JBool true]>
                          (<["user_id" := JInt 5]> ∅)))).
Proof.
  destruct (sign_in_then_Validate SampleUsers.encode SampleUsers.decode
              SampleUsers.users 1000000 1000000 5 SampleUsers.alice
              sample_users_unique eq_refl eq_refl eq_refl)
    as (tokens & Hin & _ & Href).
  exists tokens. split; [exact Hin | exact Href].
Defined.

(** ** The documents service *)

Section DocumentsRuns.

Variable auth_service : string -> http_result.
Variable account_service : Z -> http_result.

Lemma dbind_run {A B} (c : Documents.M A) (k : A -> Documents.M B)
    (w : Documents.world) :
  (c ≫= k) w
  = match c w with
    | (Ok a, w') => k a w'
    | (Raise e, w') => (Raise e, w')
    end.
Proof. reflexivity. Qed.

Lemma documents_verify_token_run (token : string) (w : Documents.world) :
  Documents.verify_token auth_service account_service token w
  = (match auth_service token with
     | TransportError => Raise (Unhandled "httpx.TransportError")
     | Response status_code body =>
         if status_code =? 200 then
           match body with
           | None => Raise (Unhandled "JSONDecodeError")
           | Some (JObj d) =>
               if truthy (dict_get d "valid") then Ok d
               else Raise invalid_token
           | Some _ => Raise (Unhandled "AttributeError")
           end
         else Raise invalid_token
     end,
     Documents.log_request w (Documents.GetValidate token)).
Proof.
  unfold Documents.verify_token. rewrite dbind_run. cbn.
  destruct (auth_service token) as [status_code body|]; [|reflexivity].
  destruct (status_code =? 200); cbn; [|reflexivity].
  rewrite dbind_run.
  destruct body as [v|]; cbn; [|reflexivity].
  destruct v; try reflexivity.
  destruct (truthy _); reflexivity.
Qed.

Lemma documents_verify_token_world (token : string) (w w1 : Documents.world)
    (r : result (gmap string json)) :
  Documents.verify_token auth_service account_service token w = (r, w1) ->
  w1 = Documents.log_request w (Documents.GetValidate token).
Proof. rewrite documents_verify_token_run. now intros [= _ <-]. Qed.

Lemma verify_user_role_run (user_id : Z) (w : Documents.world) :
  Documents.verify_user_role auth_service account_service user_id w
  = (match account_service user_id with
     | TransportError => Raise (Unhandled "httpx.TransportError")
     | Response status_code body =>
         if status_code =? 200 then
           match body with
           | None => Raise (Unhandled "JSONDecodeError")
           | Some (JObj d) =>
               if Documents.ne_string (dict_get d "role") "user"
               then Raise Documents.invalid_pacient_role
               else Ok tt
           | Some _ => Raise (Unhandled "AttributeError")
           end
         else Raise Documents.invalid_pacient_role
     end,
     Documents.log_request w (Documents.GetAccount user_id)).
Proof.
  unfold Documents.verify_user_role. rewrite dbind_run. cbn.
  destruct (account_service user_id) as [status_code body|]; [|reflexivity].
  destruct (status_code =? 200); cbn; [|reflexivity].
  rewrite dbind_run.
  destruct body as [v|]; cbn; [|reflexivity].
  destruct v; try reflexivity.
  destruct (Documents.ne_string _ _); reflexivity.
Qed.

Lemma doctor_or_owner_required_run (history_id : Z)
    (token : gmap string json) (w : Documents.world) :
  Documents.doctor_or_owner_required history_id token w
  = match Documents.denied token (Documents.table w !! history_id) with
    | Raise e => (Raise e, w)
    | Ok true => (Raise Documents.access_denied, w)
    | Ok false => (Ok tt, w)
    end.
Proof.
  unfold Documents.doctor_or_owner_required.
  rewrite dbind_run. cbn. rewrite dbind_run. cbn.
  destruct (Documents.denied token _) as [[]|e]; reflexivity.
Qed.

Lemma get_history_details_run (id : Z) (w : Documents.world) :
  Documents.get_history_details id w
  = match Documents.table w !! id with
    | Some h => (Ok h, w)
    | None => (Raise Documents.history_not_found, w)
    end.
Proof.
  unfold Documents.get_history_details. rewrite dbind_run. cbn.
  destruct (Documents.table w !! id); reflexivity.
Qed.

Lemma admin_or_medical_required_run (token : string) (w : Documents.world) :
  Documents.admin_or_medical_required auth_service account_service token w
  = match Documents.verify_token auth_service account_service token w with
    | (Raise e, w1) => (Raise e, w1)
    | (Ok d, w1) => (Documents.check_admin_or_medical d, w1)
    end.
Proof.
  unfold Documents.admin_or_medical_required. rewrite dbind_run.
  destruct (Documents.verify_token _ _ token w) as [[d|e] w1]; reflexivity.
Qed.

Lemma create_history_run (history : Documents.HistoryCreate)
    (w : Documents.world) :
  Documents.create_history auth_service account_service history w
  = match Documents.verify_user_role auth_service account_service
            (Documents.c_pacient_id history) w with
    | (Raise e, w1) => (Raise e, w1)
    | (Ok _, w1) => Documents.session_add_commit history w1
    end.
Proof.
  unfold Documents.create_history. rewrite dbind_run.
  destruct (Documents.verify_user_role _ _ _ w) as [[[]|e] w1]; reflexivity.
Qed.

Lemma update_history_run (id : Z) (updated : Documents.HistoryUpdate)
    (w : Documents.world) :
  Documents.update_history id updated w
  = match Documents.table w !! id with
    | None => (Raise Documents.history_not_found, w)
    | Some h =>
        let row := Documents.set_attributes h updated in
        (Ok row,
         Documents.mk_world (<[id := row]> (Documents.table w))
           (Documents.next_id w) (Documents.outbound w))
    end.
Proof.
  unfold Documents.update_history. rewrite dbind_run. cbn.
  destruct (Documents.table w !! id); reflexivity.
Qed.

End DocumentsRuns.

(** A passed access check rules out the handler's 404: when
    [doctor_or_owner_required] returns for an id, the history is stored and
    [get_history_details] returns it for that id; for an id that is not
    stored the check itself raises 403 "Access denied", whatever the token
    says, so "History not found" can only come out when the two are given
    different ids. *)
Theorem doctor_or_owner_required_guards_lookup
    (id : Z) (token : gmap string json) (w : Documents.world) :
  (Documents.table w !! id = None ->
   Documents.doctor_or_owner_required id token w
   = (Raise Documents.access_denied, w))
  /\ (forall w1,
        Documents.doctor_or_owner_required id token w = (Ok tt, w1) ->
        w1 = w
        /\ exists h, Documents.table w !! id = Some h
                     /\ Documents.get_history_details id w = (Ok h, w)).
Proof.
  rewrite doctor_or_owner_required_run, get_history_details_run. split.
  - intros ->. reflexivity.
  - intros w1. destruct (Documents.table w !! id) as [h|].
    + destruct (Documents.denied token (Some h)) as [[]|e];
        intros [= <-]. eauto.
    + cbn. discriminate.
Qed.

Lemma doctor_or_owner_required_guards_lookup_witness :
  Documents.doctor_or_owner_required 9 (Sample.validated "doctor")
    SampleHistories.two_visits
  = (Raise Documents.access_denied, SampleHistories.two_visits).
Proof.
  apply (doctor_or_owner_required_guards_lookup 9 (Sample.validated "doctor")
           SampleHistories.two_visits).
  reflexivity.
Defined.

(** Who passes the access check for a stored history: a token dictionary
    whose role is "doctor", or whose [user_id] is the patient of the
    history; every other dictionary carrying a string role and an integer
    [user_id] gets 403 "Access denied".  The check changes nothing. *)
Theorem doctor_or_owner_required_access
    (id : Z) (token : gmap string json) (h : Documents.History)
    (r : string) (u : Z) (w : Documents.world) :
  token !! "role" = Some (JStr r) -> token !! "user_id" = Some (JInt u) ->
  Documents.table w !! id = Some h ->
  Documents.doctor_or_owner_required id token w
  = (if bool_decide (r = "doctor" \/ u = Documents.pacient_id h)
     then Ok tt else Raise Documents.access_denied,
     w).
Proof.
  intros Hr Hu L. rewrite doctor_or_owner_required_run, L. cbn.
  unfold Documents.dict_item. rewrite Hr. cbn.
  destruct (decide (r = "doctor")) as [->|Hne].
  - rewrite bool_decide_eq_true_2 by reflexivity. cbn.
    rewrite bool_decide_eq_true_2 by auto. reflexivity.
  - rewrite (bool_decide_eq_false_2 _ Hne). cbn. rewrite Hu. cbn.
    destruct (Z.eqb_spec u (Documents.pacient_id h)) as [->|Hu'].
    + cbn. rewrite bool_decide_eq_true_2 by auto. reflexivity.
    + cbn. rewrite bool_decide_eq_false_2 by tauto. reflexivity.
Qed.

(** Patient 5 passes the check for history 1, which is theirs, and is
    refused for history 2. *)
Lemma doctor_or_owner_required_access_witness :
  Documents.doctor_or_owner_required 1 (Sample.validated "user")
    SampleHistories.two_visits
  = (Ok tt, SampleHistories.two_visits)
  /\ Documents.doctor_or_owner_required 2 (Sample.validated "user")
       SampleHistories.two_visits
     = (Raise Documents.access_denied, SampleHistories.two_visits).
Proof.
  split.
  - apply (doctor_or_owner_required_access 1 (Sample.validated "user")
             (SampleHistories.visit 1 5) "user" 5 SampleHistories.two_visits
             eq_refl eq_refl eq_refl).
  - apply (doctor_or_owner_required_access 2 (Sample.validated "user")
             (SampleHistories.visit 2 6) "user" 5 SampleHistories.two_visits
             eq_refl eq_refl eq_refl).
Defined.

(** The check and the fetch read different ids.  The path of
    [GET /api/History/{id}] binds the handler's [id]; the parameter
    [history_id] of the check is not in the path and is an input of its
    own.  For a token dictionary whose [user_id] is the patient of the
    stored history [history_id], the check passes, and the handler, given
    any other stored [id], returns that history, whoever its patient is. *)
Theorem history_check_and_fetch_differ
    (history_id id : Z) (token : gmap string json)
    (own other : Documents.History) (r : json) (w : Documents.world) :
  token !! "role" = Some r ->
  token !! "user_id" = Some (JInt (Documents.pacient_id own)) ->
  Documents.table w !! history_id = Some own ->
  Documents.table w !! id = Some other ->
  Documents.doctor_or_owner_required history_id token w = (Ok tt, w)
  /\ Documents.get_history_details id w = (Ok other, w).
Proof.
  intros Hr Hu Lown Lother.
  rewrite doctor_or_owner_required_run, get_history_details_run, Lown, Lother.
  cbn. unfold Documents.dict_item. rewrite Hr, Hu. cbn.
  rewrite Z.eqb_refl. cbn.
  destruct (Documents.ne_string r "doctor"); split; reflexivity.
Qed.

(** Patient 5, owner of history 1, passes the check for history 1; the
    handler, given id 2, returns the history of patient 6. *)
Lemma history_check_and_fetch_differ_witness :
  Documents.doctor_or_owner_required 1 (Sample.validated "user")
    SampleHistories.two_visits
  = (Ok tt, SampleHistories.two_visits)
  /\ Documents.get_history_details 2 SampleHistories.two_visits
     = (Ok (SampleHistories.visit 2 6), SampleHistories.two_visits).
Proof.
  apply (history_check_and_fetch_differ 1 2 (Sample.validated "user")
           (SampleHistories.visit 1 5) (SampleHistories.visit 2 6)
           (JStr "user") SampleHistories.two_visits
           eq_refl eq_refl eq_refl eq_refl).
Defined.

(** The list of a patient's histories: the handler returns one entry per
    stored history whose patient is the requested id and nothing else, and
    leaves the state alone.  It takes no token dictionary and compares the
    requested id with nothing about the caller. *)
Theorem get_history_by_account_exact (id : Z) (w : Documents.world) :
  exists keyed : list (Z * Documents.History),
    Documents.get_history_by_account id w = (Ok (keyed.*2), w)
    /\ NoDup (keyed.*1)
    /\ forall k h, (k, h) ∈ keyed
                   <-> Documents.table w !! k = Some h
                       /\ Documents.pacient_id h = id.
Proof.
  eexists. split; [reflexivity|]. split; [apply NoDup_fst_map_to_list|].
  intros k h. rewrite elem_of_map_to_list, map_lookup_filter_Some. cbn.
  reflexivity.
Qed.

(** The patient check passes for exactly one answer of the account
    service: status 200 with a JSON object whose [role] is the string
    "user". *)
Theorem verify_user_role_passes_iff
    (auth_service : string -> http_result) (account_service : Z -> http_result)
    (user_id : Z) (w w1 : Documents.world) :
  Documents.verify_user_role auth_service account_service user_id w = (Ok tt, w1)
  <-> (exists d, account_service user_id = Response 200 (Some (JObj d))
                 /\ d !! "role" = Some (JStr "user"))
      /\ w1 = Documents.log_request w (Documents.GetAccount user_id).
Proof.
  rewrite verify_user_role_run.
  destruct (account_service user_id) as [status_code body|].
  2: { split; [discriminate | intros [(? & ? & _) _]; discriminate]. }
  destruct (Z.eqb_spec status_code 200) as [->|Hne].
  2: { split; [discriminate | intros [(? & [= ?] & _) _]; contradiction]. }
  destruct body as [v|].
  2: { split; [discriminate | intros [(? & ? & _) _]; discriminate]. }
  destruct v; try (split; [discriminate | intros [(? & ? & _) _]; discriminate]).
  unfold dict_get.
  destruct (m !! "role") as [r|] eqn:R; cbn.
  - destruct r; cbn;
      try (split; [discriminate
                  | intros [(? & [= <-] & ?) _]; congruence]).
    destruct (decide (s = "user")) as [->|Hne].
    + rewrite bool_decide_eq_true_2 by reflexivity. cbn. split.
      * intros [= <-]. split; [eauto | reflexivity].
      * intros [_ ->]. reflexivity.
    + rewrite (bool_decide_eq_false_2 _ Hne). cbn.
      split; [discriminate|]. intros [(? & [= <-] & ?) _]. congruence.
  - split; [discriminate|]. intros [(? & [= <-] & ?) _]. congruence.
Qed.

Lemma verify_user_role_refuses
    (auth_service : string -> http_result) (account_service : Z -> http_result)
    (user_id : Z) (w : Documents.world) :
  (forall d, account_service user_id = Response 200 (Some (JObj d)) ->
             d !! "role" <> Some (JStr "user")) ->
  exists e,
    Documents.verify_user_role auth_service account_service user_id w
    = (Raise e, Documents.log_request w (Documents.GetAccount user_id)).
Proof.
  intros Hno. rewrite verify_user_role_run.
  destruct (account_service user_id) as [status_code body|]; [|eauto].
  destruct (Z.eqb_spec status_code 200) as [->|Hne]; [|eauto].
  destruct body as [v|]; [|eauto].
  destruct v; eauto.
  specialize (Hno m eq_refl). unfold dict_get.
  destruct (m !! "role") as [r|]; cbn; [|eauto].
  destruct r; cbn; eauto.
  destruct (decide (s = "user")) as [->|Hs]; [congruence|].
  rewrite (bool_decide_eq_false_2 _ Hs). cbn. eauto.
Qed.

(** Creating a history persists in one case only: the account service
    answers for the patient with 200 and role "user".  Then the row gets
    the next key and the columns of the body; in every other case the
    request fails and table and key sequence are as they were. *)
Theorem create_history_atomic
    (auth_service : string -> http_result) (account_service : Z -> http_result)
    (history : Documents.HistoryCreate) (w w1 : Documents.world)
    (r : result Documents.History) :
  Documents.create_history auth_service account_service history w = (r, w1) ->
  ((exists d, account_service (Documents.c_pacient_id history)
              = Response 200 (Some (JObj d))
              /\ d !! "role" = Some (JStr "user")) ->
   exists row,
     r = Ok row
     /\ Documents.id row = Some (Documents.next_id w)
     /\ Documents.pacient_id row = Documents.c_pacient_id history
     /\ Documents.table w1 = <[Documents.next_id w := row]> (Documents.table w)
     /\ Documents.next_id w1 = Documents.next_id w + 1)
  /\ ((forall d, account_service (Documents.c_pacient_id history)
                 = Response 200 (Some (JObj d)) ->
                 d !! "role" <> Some (JStr "user")) ->
      (exists e, r = Raise e)
      /\ Documents.table w1 = Documents.table w
      /\ Documents.next_id w1 = Documents.next_id w).
Proof.
  rewrite create_history_run. intros Hrun. split.
  - intros (d & Hd & Hr).
    rewrite verify_user_role_run, Hd in Hrun. cbn in Hrun.
    unfold dict_get in Hrun. rewrite Hr in Hrun. cbn in Hrun.
    injection Hrun as <- <-.
    eexists. split; [reflexivity|]. cbn. auto.
  - intros Hno.
    destruct (verify_user_role_refuses auth_service account_service
                (Documents.c_pacient_id history) w Hno) as [e V].
    rewrite V in Hrun. injection Hrun as <- <-. cbn. eauto.
Qed.

(** No account answers for user 6, so a history for patient 6 is refused. *)
Lemma create_history_atomic_witness :
  Documents.table
    (Documents.create_history (Sample.auth_with_role "doctor")
       SampleHistories.accounts
       (Documents.mk_HistoryCreate (Sample.at_time 9 0 0 0) 6 1 7 "101" "x")
       SampleHistories.two_visits).2
  = Documents.table SampleHistories.two_visits.
Proof.
  destruct (create_history_atomic (Sample.auth_with_role "doctor")
              SampleHistories.accounts
              (Documents.mk_HistoryCreate (Sample.at_time 9 0 0 0) 6 1 7
                                          "101" "x")
              SampleHistories.two_visits _ _ (surjective_pairing _))
    as [_ Hno].
  apply Hno. intros d. vm_compute. discriminate.
Defined.

(** Updating a stored history replaces its date, hospital, doctor, room
    and data by those of the body and keeps its id and its patient; no
    other row changes.  For an id that is not stored the update raises 404
    "History not found" and changes nothing. *)
Theorem update_history_keeps_patient
    (id : Z) (updated : Documents.HistoryUpdate) (w : Documents.world) :
  (forall h, Documents.table w !! id = Some h ->
     exists row w1,
       Documents.update_history id updated w = (Ok row, w1)
       /\ Documents.pacient_id row = Documents.pacient_id h
       /\ Documents.id row = Documents.id h
       /\ Documents.date row = Documents.u_date updated
       /\ Documents.hospital_id row = Documents.u_hospital_id updated
       /\ Documents.doctor_id row = Documents.u_doctor_id updated
       /\ Documents.room row = Documents.u_room updated
       /\ Documents.data row = Documents.u_data updated
       /\ Documents.table w1 !! id = Some row
       /\ forall k, k <> id ->
            Documents.table w1 !! k = Documents.table w !! k)
  /\ (Documents.table w !! id = None ->
      Documents.update_history id updated w
      = (Raise Documents.history_not_found, w)).
Proof.
  rewrite update_history_run. split.
  - intros h ->. eexists _, _. split; [reflexivity|]. cbn.
    repeat (split; [reflexivity|]).
    split; [apply lookup_insert_eq|].
    intros k Hk. now apply lookup_insert_ne.
  - intros ->. reflexivity.
Qed.

Lemma update_history_keeps_patient_witness :
  exists row w1,
    Documents.update_history 2
      (Documents.mk_HistoryUpdate (Sample.at_time 10 0 0 0) 3 8 "202" "y")
      SampleHistories.two_visits = (Ok row, w1)
    /\ Documents.pacient_id row = 6.
Proof.
  destruct (update_history_keeps_patient 2
              (Documents.mk_HistoryUpdate (Sample.at_time 10 0 0 0) 3 8
                                          "202" "y")
              SampleHistories.two_visits) as [Hstored _].
  destruct (Hstored (SampleHistories.visit 2 6) eq_refl)
    as (row & w1 & Hrun & Hp & _).
  exists row, w1. split; [exact Hrun | exact Hp].
Defined.

(** With the Validate endpoint as coded behind it, the role gate of the
    documents service lets nobody through and never answers 403: for a
    token that decodes it fails on the missing [role] key, an unhandled
    [KeyError] and so a 500; for any other token it answers 401.  In both
    cases it has made its one call to the authentication service and
    changed nothing else. *)
Theorem documents_behind_Validate
    (jwt_decode : string -> option (gmap string json))
    (account_service : Z -> http_result) (token : string)
    (w : Documents.world) :
  exists e,
    (e = Unhandled "KeyError" /\ is_Some (jwt_decode token)
     \/ e = invalid_token /\ jwt_decode token = None)
    /\ Documents.admin_or_medical_required (Validate_endpoint jwt_decode)
         account_service token w
       = (Raise e, Documents.log_request w (Documents.GetValidate token)).
Proof.
  rewrite admin_or_medical_required_run, documents_verify_token_run.
  unfold Validate_endpoint, validate_token.
  destruct (jwt_decode token) as [payload|] eqn:J; cbn.
  - exists (Unhandled "KeyError"). split; [left; eauto | reflexivity].
  - exists invalid_token. split; [right; auto | reflexivity].
Qed.

(** The two writing routes of the documents service as coded stop in
    [get_session], like those of the timetable service. *)
Lemma history_routes_stop_at_get_session
    (auth_service : string -> http_result) (account_service : Z -> http_result)
    (token : string) (w : Documents.world) :
  (forall history,
     Documents.POST_History auth_service account_service token history w
     = (Raise session_error, w))
  /\ (forall id updated,
        Documents.PUT_History auth_service account_service token id updated w
        = (Raise session_error, w)).
Proof. split; reflexivity. Qed.

Section HistoryInvariant.

Variable auth_service : string -> http_result.
Variable account_service : Z -> http_result.

Lemma admin_or_medical_required_world (token : string)
    (w w1 : Documents.world) (r : result unit) :
  Documents.admin_or_medical_required auth_service account_service token w
  = (r, w1) ->
  w1 = Documents.log_request w (Documents.GetValidate token).
Proof.
  rewrite admin_or_medical_required_run.
  destruct (Documents.verify_token _ _ token w) as [[d|e] w0] eqn:V;
    apply documents_verify_token_world in V; now intros [= _ <-].
Qed.

(** What a write route of the documents service can do to the state. *)
Lemma POST_History_effect (session : result unit) (token : string)
    (history : Documents.HistoryCreate) (w : Documents.world) :
  let w' := (Documents.POST_History_with auth_service account_service
               session token history w).2 in
  (Documents.table w' = Documents.table w
   /\ Documents.next_id w' = Documents.next_id w)
  \/ exists row,
       Documents.table w'
       = <[Documents.next_id w := row]> (Documents.table w)
       /\ Documents.next_id w' = Documents.next_id w + 1.
Proof.
  cbv zeta. unfold Documents.POST_History_with.
  destruct session as [[]|es]; [|left; split; reflexivity].
  rewrite dbind_run. cbn. rewrite dbind_run.
  destruct (Documents.admin_or_medical_required _ _ token w)
    as [[[]|e] w1] eqn:G;
    apply admin_or_medical_required_world in G as ->;
    [|left; split; reflexivity].
  rewrite create_history_run.
  destruct (Documents.verify_user_role _ _ _ _) as [[[]|e] w2] eqn:V;
    rewrite verify_user_role_run in V; injection V as _ <-.
  - right. eexists. split; reflexivity.
  - left. split; reflexivity.
Qed.

Lemma PUT_History_effect (session : result unit) (token : string) (id : Z)
    (updated : Documents.HistoryUpdate) (w : Documents.world) :
  let w' := (Documents.PUT_History_with auth_service account_service
               session token id updated w).2 in
  Documents.next_id w' = Documents.next_id w
  /\ (Documents.table w' = Documents.table w
      \/ exists h,
           Documents.table w !! id = Some h
           /\ Documents.table w'
              = <[id := Documents.set_attributes h updated]>
                  (Documents.table w)).
Proof.
  cbv zeta. unfold Documents.PUT_History_with.
  destruct session as [[]|es]; [|split; [|left]; reflexivity].
  rewrite dbind_run. cbn. rewrite dbind_run.
  destruct (Documents.admin_or_medical_required _ _ token w)
    as [[[]|e] w1] eqn:G;
    apply admin_or_medical_required_world in G as ->;
    [|split; [|left]; reflexivity].
  rewrite update_history_run. cbn.
  destruct (Documents.table w !! id) as [h|] eqn:L; cbn.
  - split; [reflexivity|]. right. eauto.
  - split; [|left]; reflexivity.
Qed.

End HistoryInvariant.

(** A stored history is there to stay, with its patient: whatever create
    or update request is served, by whatever token, and whether the
    session dependency raises as coded or yields a session, a row stored
    under a key drawn from the sequence is still stored under that key
    afterwards, with the same id and the same patient; and the keys in use
    stay below the sequence. *)
Theorem histories_keep_patient
    (auth_service : string -> http_result) (account_service : Z -> http_result)
    (session : result unit) (token : string) (w : Documents.world) (k : Z)
    (h : Documents.History) :
  history_keys_below w -> Documents.table w !! k = Some h ->
  let kept (w' : Documents.world) :=
    history_keys_below w'
    /\ exists h', Documents.table w' !! k = Some h'
                  /\ Documents.pacient_id h' = Documents.pacient_id h
                  /\ Documents.id h' = Documents.id h in
  (forall history,
     kept (Documents.POST_History_with auth_service account_service
             session token history w).2)
  /\ (forall id updated,
        kept (Documents.PUT_History_with auth_service account_service
                session token id updated w).2).
Proof.
  intros K L. cbv zeta. split.
  - intros history.
    destruct (POST_History_effect auth_service account_service session token
                history w) as [[Ht Hn] | (row & Ht & Hn)].
    + split.
      * intros k' h'. rewrite Ht, Hn. apply K.
      * rewrite Ht. eauto.
    + split.
      * intros k' h'. rewrite Ht, Hn, lookup_insert.
        case_decide; [intros _; lia|]. intros Hk'. apply K in Hk'. lia.
      * rewrite Ht. exists h. rewrite lookup_insert_ne; [auto|].
        intros <-. apply K in L. lia.
  - intros id updated.
    destruct (PUT_History_effect auth_service account_service session token id
                updated w) as [Hn [Ht | (h0 & L0 & Ht)]].
    + split.
      * intros k' h'. rewrite Ht, Hn. apply K.
      * rewrite Ht. eauto.
    + split.
      * intros k' h'. rewrite Ht, Hn, lookup_insert.
        case_decide; [subst; intros _; now apply K in L0 | apply K].
      * rewrite Ht, lookup_insert. case_decide.
        -- subst. rewrite L in L0. injection L0 as <-.
           eexists. split; [reflexivity|]. split; reflexivity.
        -- eauto.
Qed.

(** With a session yielded, a doctor rewrites history 2; it stays the
    history of patient 6. *)
Lemma histories_keep_patient_witness :
  exists h',
    Documents.table
      (Documents.PUT_History_with (Sample.auth_with_role "doctor")
         SampleHistories.accounts (Ok tt) "t0k3n" 2
         (Documents.mk_HistoryUpdate (Sample.at_time 10 0 0 0) 3 8 "202" "y")
         SampleHistories.two_visits).2 !! 2 = Some h'
    /\ Documents.pacient_id h' = 6.
Proof.
  assert (history_keys_below SampleHistories.two_visits) as K.
  { intros k h. unfold SampleHistories.two_visits; cbn.
    rewrite !lookup_insert, lookup_empty.
    repeat case_decide; subst; intros [= <-]; lia. }
  destruct (histories_keep_patient (Sample.auth_with_role "doctor")
              SampleHistories.accounts (Ok tt) "t0k3n"
              SampleHistories.two_visits
              2 (SampleHistories.visit 2 6) K eq_refl) as [_ Hput].
  destruct (Hput 2 (Documents.mk_HistoryUpdate (Sample.at_time 10 0 0 0)
                                               3 8 "202" "y"))
    as (_ & h' & Hl & Hp & _).
  exists h'. split; [exact Hl | exact Hp].
Defined.
